(** * Post handlers of the mongoose tutorial API

    A shallow embedding of the posts controller (its last revision, with
    request validation, paging and the id guard: [checkObjectId], [write],
    [list], [read], [remove], [update]) and of the model
    [src/models/post.js].

    The controller is written against three libraries that are not part of
    the repository: Koa (the request context [ctx]), Joi (request-body
    validation) and mongoose over the BSON [ObjectId] (the document store).
    Each of them is modelled here by an executable definition that follows
    the library's documented behaviour on the calls the controller makes;
    the handlers themselves are transcribed statement by statement.

    Conventions.
    - A JavaScript string is a [string]; one [ascii] stands for one code
      unit, so [String.length] is the JavaScript [length].
    - A JavaScript number that the controller computes with is a [jsnum]:
      [NaN] or an exact integer.  The controller only ever compares a page
      number with [1], subtracts [1] and multiplies by [10]; these agree with
      IEEE-754 doubles on the safe-integer range.
    - An asynchronous handler is a finite program [prog] over the model
      calls [PostE]; a rejected promise is the [inl] answer of a call and
      the [catch] blocks turn it into [ctx.throw(500, e)]. *)

From Stdlib Require Import ZArith NArith QArith Qround Lia Bool List.
From Stdlib Require Import Ascii String.
From Stdlib Require Import Sorting.Sorted Sorting.Permutation Sorting.Mergesort Orders.
From Stdlib Require DecimalString DecimalPos.
Import ListNotations.

Set Warnings "-register-all".

Local Open Scope string_scope.
Local Open Scope Z_scope.

(* ================================================================== *)
(** ** JavaScript values *)

(** A BSON ObjectId is twelve bytes; it is kept as the number those bytes
    spell in big-endian order, which is also the order MongoDB sorts by. *)
Definition ObjectId := N.

(** The values a parsed JSON body, a mongoose document turned into a plain
    object ([toJSON]) and an update document are made of.  [undefined] is not
    a constructor: a missing property is the [None] of [obj_get]. *)
Inductive jsval : Type :=
| JNull
| JBool (b : bool)
| JNum (n : Z)
| JStr (s : string)
| JArr (items : list jsval)
| JObj (fields : list (string * jsval))
| JOid (o : ObjectId)
| JDate (t : Z).

(** [fields[key]] on the property list of an object. *)
Fixpoint assoc_get (key : string) (fields : list (string * jsval)) : option jsval :=
  match fields with
  | [] => None
  | (k, v) :: rest => if String.eqb k key then Some v else assoc_get key rest
  end.

(** [value[key]]; a value that is not an object has no own properties. *)
Definition obj_get (key : string) (v : jsval) : option jsval :=
  match v with
  | JObj fields => assoc_get key fields
  | _ => None
  end.

(** [{ ...obj, key: v }] for a key the object already has keeps the key's
    position; a new key goes last. *)
Fixpoint assoc_set (key : string) (v : jsval) (fields : list (string * jsval))
  : list (string * jsval) :=
  match fields with
  | [] => [(key, v)]
  | (k, w) :: rest =>
      if String.eqb k key then (k, v) :: rest else (k, w) :: assoc_set key v rest
  end.

(** Numbers the controller computes with.  [Num z] is the integer [z]
    exactly; JavaScript holds integers exactly up to [MAX_SAFE_INTEGER] in
    absolute value and rounds beyond, so what is proved of a number speaks
    for the code on that range. *)
Inductive jsnum : Type :=
| NaN
| Num (z : Z).

Definition js_sub (a b : jsnum) : jsnum :=
  match a, b with
  | Num x, Num y => Num (x - y)
  | _, _ => NaN
  end.

Definition js_mul (a b : jsnum) : jsnum :=
  match a, b with
  | Num x, Num y => Num (x * y)
  | _, _ => NaN
  end.

(** [a < b]: every comparison with [NaN] is false. *)
Definition js_lt (a b : jsnum) : bool :=
  match a, b with
  | Num x, Num y => x <? y
  | _, _ => false
  end.

(** [Number.MAX_SAFE_INTEGER] *)
Definition MAX_SAFE_INTEGER : Z := 2 ^ 53 - 1.

(* ------------------------------------------------------------------ *)
(** *** [parseInt(s, 10)]

    Leading white space, an optional sign, then the longest run of decimal
    digits; [NaN] when there is no digit.  The value is the exact integer
    the digits spell: it is JavaScript's on the safe-integer range, beyond
    which JavaScript rounds to the nearest double. *)

Definition is_white_space (c : ascii) : bool :=
  let n := nat_of_ascii c in
  (((9 <=? n) && (n <=? 13)) || (n =? 32) || (n =? 160))%nat.

Fixpoint trim_start (s : string) : string :=
  match s with
  | String c rest => if is_white_space c then trim_start rest else s
  | EmptyString => EmptyString
  end.

Definition digit_value (c : ascii) : option Z :=
  let n := Z.of_nat (nat_of_ascii c) in
  if (48 <=? n) && (n <=? 57) then Some (n - 48) else None.

(** The longest prefix of decimal digits, as a number; [acc] is [None] until
    a first digit has been read. *)
Fixpoint parse_digits (s : string) (acc : option Z) : option Z :=
  match s with
  | String c rest =>
      match digit_value c with
      | Some d =>
          parse_digits rest
            (Some (10 * (match acc with Some a => a | None => 0 end) + d))
      | None => acc
      end
  | EmptyString => acc
  end.

Definition parseInt (s : string) : jsnum :=
  let s1 := trim_start s in
  let '(sign, s2) :=
    match s1 with
    | String "-"%char rest => (-1, rest)
    | String "+"%char rest => (1, rest)
    | _ => (1, s1)
    end in
  match parse_digits s2 None with
  | Some v => Num (sign * v)
  | None => NaN
  end.

(** [Math.ceil(a / b)] for the integers the controller divides. *)
Definition Math_ceil_div (a b : Z) : Z := Qceiling (inject_Z a / inject_Z b)%Q.

(** [String(n)] for an integer: its decimal digits, which is JavaScript's
    form below [1e21] (from there on JavaScript writes an exponent). *)
Definition String_of_Z (n : Z) : string :=
  DecimalString.NilZero.string_of_int (Z.to_int n).

(* ================================================================== *)
(** ** BSON ObjectId *)

Definition hex_value (c : ascii) : option N :=
  let n := N_of_ascii c in
  (if (48 <=? n) && (n <=? 57) then Some (n - 48)
   else if (97 <=? n) && (n <=? 102) then Some (n - 87)
   else if (65 <=? n) && (n <=? 70) then Some (n - 55)
   else None)%N.

Definition hex_digit (d : N) : ascii :=
  (if d <? 10 then ascii_of_N (48 + d) else ascii_of_N (87 + d))%N.

Fixpoint parse_hex (s : string) (acc : N) : option N :=
  match s with
  | EmptyString => Some acc
  | String c rest =>
      match hex_value c with
      | Some d => parse_hex rest (16 * acc + d)%N
      | None => None
      end
  end.

Fixpoint hex_digits (n : nat) (v : N) (suffix : string) : string :=
  match n with
  | O => suffix
  | S n' => hex_digits n' (v / 16)%N (String (hex_digit (v mod 16)%N) suffix)
  end.

Fixpoint bytes_value (s : string) (acc : N) : N :=
  match s with
  | EmptyString => acc
  | String c rest => bytes_value rest (256 * acc + N_of_ascii c)%N
  end.

Fixpoint all_hex (s : string) : bool :=
  match s with
  | EmptyString => true
  | String c rest =>
      match hex_value c with Some _ => all_hex rest | None => false end
  end.

(** [ObjectId.isValid(id)] on a string: twelve characters, or twenty-four
    hexadecimal digits. *)
Definition ObjectId_isValid (id : string) : bool :=
  (String.length id =? 12)%nat
  || ((String.length id =? 24)%nat && all_hex id).

(** [new ObjectId(id)], the cast mongoose applies to an [_id] condition;
    [None] is the CastError. *)
Definition castObjectId (id : string) : option ObjectId :=
  if ((String.length id =? 24)%nat && all_hex id)%bool then parse_hex id 0%N
  else if (String.length id =? 12)%nat then Some (bytes_value id 0%N)
  else None.

(** [oid.toHexString()], what a client sees as the id and sends back in the
    path. *)
Definition toHexString (o : ObjectId) : string := hex_digits 24 o EmptyString.

(* ================================================================== *)
(** ** Joi: the part of the validation library the controller uses

    [Joi.string()], [Joi.array().items(s)], [Joi.object().keys({...})] and
    [.required()], validated with Joi's default preferences: the first error
    ends the validation ([abortEarly]), a key the schema does not list is an
    error ([allowUnknown] off), every key is optional unless [required], and
    the empty string is not a valid [Joi.string()]. *)

Inductive Schema : Type :=
| Joi_string
| Joi_array_items (item : Schema)
| Joi_object_keys (keys : list (string * Schema))
| Joi_required (s : Schema).

(** The detail of a validation error: Joi's error code and the path of the
    offending value (a key or an array index per step). *)
Record ValidationError : Type := mkValidationError {
  err_type : string;
  err_path : list (string + nat)
}.

Definition known_key (keys : list (string * Schema)) (kv : string * jsval) : bool :=
  existsb (String.eqb (fst kv)) (map fst keys).

(** The items of an array, in order, each against the items schema. *)
Fixpoint validate_items (check : list (string + nat) -> option jsval -> option ValidationError)
    (path : list (string + nat)) (items : list jsval) (i : nat)
  : option ValidationError :=
  match items with
  | [] => None
  | x :: rest =>
      match check (path ++ [inr i])%list (Some x) with
      | Some e => Some e
      | None => validate_items check path rest (S i)
      end
  end.

(** The keys of the schema, in the schema's order, each against the
    property of that name. *)
Fixpoint validate_keys {S : Type}
    (check : S -> list (string + nat) -> option jsval -> option ValidationError)
    (path : list (string + nat)) (fields : list (string * jsval))
    (keys : list (string * S)) : option ValidationError :=
  match keys with
  | [] => None
  | (k, sk) :: rest =>
      match check sk (path ++ [inl k])%list (assoc_get k fields) with
      | Some e => Some e
      | None => validate_keys check path fields rest
      end
  end.

Fixpoint validate_value (s : Schema) (path : list (string + nat))
    (v : option jsval) {struct s} : option ValidationError :=
  match s with
  | Joi_required s' =>
      match v with
      | None => Some (mkValidationError "any.required" path)
      | Some _ => validate_value s' path v
      end
  | Joi_string =>
      match v with
      | None => None
      | Some (JStr EmptyString) => Some (mkValidationError "string.empty" path)
      | Some (JStr _) => None
      | Some _ => Some (mkValidationError "string.base" path)
      end
  | Joi_array_items item =>
      match v with
      | None => None
      | Some (JArr items) => validate_items (validate_value item) path items O
      | Some _ => Some (mkValidationError "array.base" path)
      end
  | Joi_object_keys keys =>
      match v with
      | None => None
      | Some (JObj fields) =>
          match validate_keys validate_value path fields keys with
          | Some e => Some e
          | None =>
              match find (fun kv => negb (known_key keys kv)) fields with
              | Some (k, _) => Some (mkValidationError "object.unknown" (path ++ [inl k])%list)
              | None => None
              end
          end
      | Some _ => Some (mkValidationError "object.base" path)
      end
  end.

(** [schema.validate(value).error]; [None] is [undefined]. *)
Definition Schema_validate (schema : Schema) (value : jsval) : option ValidationError :=
  validate_value schema [] (Some value).

(* ================================================================== *)
(** ** The Post model ([src/models/post.js]) *)

(** A stored post.  The schema's fields keep their spelling, [publishedData]
    included; [_id] is the identifier mongoose assigns.  The version key
    mongoose adds on its own is left out. *)
Record Doc : Type := mkDoc {
  _id : ObjectId;
  title : string;
  body : string;
  tags : list string;
  publishedData : Z
}.

(** [post.toJSON()]: the plain object of a document. *)
Definition toJSON (post : Doc) : jsval :=
  JObj [ ("_id", JOid (_id post));
         ("title", JStr (title post));
         ("body", JStr (body post));
         ("tags", JArr (map JStr (tags post)));
         ("publishedData", JDate (publishedData post)) ].

(** What an awaited call can reject with, or a [try] block can catch. *)
Inductive JsError : Type :=
| CastError (path : string)
| MongoError (message : string)
| TypeError (message : string).

(** The calls the controller makes on the model.  [NewPost] is
    [new Post({title, body, tags})], which runs locally and cannot fail; the
    others are the awaited queries, answered by a rejection ([inl]) or a
    value ([inr]). *)
Inductive PostE : Type -> Type :=
| NewPost (title body tags : option jsval) : PostE Doc
| Save (post : Doc) : PostE (JsError + unit)
| Find (sort_id : Z) (limit : Z) (skip : jsnum) : PostE (JsError + list Doc)
| CountDocuments : PostE (JsError + Z)
| FindById (id : string) : PostE (JsError + option Doc)
| FindByIdAndRemove (id : string) : PostE (JsError + option Doc)
| FindByIdAndUpdate (id : string) (update : jsval) (new : bool)
    : PostE (JsError + option Doc).

(* ================================================================== *)
(** ** Koa: the request context *)

Inductive ResponseBody : Type :=
| BodyError (e : ValidationError)
| BodyPost (post : Doc)
| BodyPosts (posts : list jsval).

Record Ctx : Type := mkCtx {
  params_id : string;
  query_page : option string;
  request_body : jsval;
  status : Z;
  explicitStatus : bool;
  response_body : option ResponseBody;
  headers : list (string * string)
}.

(** The context Koa hands to the first middleware of a request: status 404,
    nothing set. *)
Definition createContext (id : string) (page : option string) (req : jsval) : Ctx :=
  mkCtx id page req 404 false None [].

(** Status codes whose response has no body. *)
Definition statuses_empty (code : Z) : bool :=
  (code =? 204) || (code =? 205) || (code =? 304).

(** [ctx.status = code]. *)
Definition set_status (code : Z) (ctx : Ctx) : Ctx :=
  mkCtx (params_id ctx) (query_page ctx) (request_body ctx)
        code true
        (if statuses_empty code then None else response_body ctx)
        (headers ctx).

(** [ctx.body = val] for a value that is not null: the status becomes 200
    unless one was set explicitly. *)
Definition set_body (val : ResponseBody) (ctx : Ctx) : Ctx :=
  mkCtx (params_id ctx) (query_page ctx) (request_body ctx)
        (if explicitStatus ctx then status ctx else 200) (explicitStatus ctx)
        (Some val)
        (headers ctx).

(** [ctx.set(field, val)]. *)
Definition set_header (field val : string) (ctx : Ctx) : Ctx :=
  mkCtx (params_id ctx) (query_page ctx) (request_body ctx)
        (status ctx) (explicitStatus ctx) (response_body ctx)
        ((field, val) :: filter (fun h => negb (String.eqb (fst h) field)) (headers ctx)).

Definition get_header (field : string) (ctx : Ctx) : option string :=
  option_map snd (find (fun h => String.eqb (fst h) field) (headers ctx)).

(* ================================================================== *)
(** ** Handler programs *)

(** An asynchronous handler: it ends with the context it has filled in,
    throws an HTTP error, or awaits a model call and goes on with the
    answer. *)
Inductive prog (A : Type) : Type :=
| Ret (a : A)
| Throw (code : Z) (e : JsError)
| Call {X : Type} (e : PostE X) (k : X -> prog A).

Arguments Ret {A} a.
Arguments Throw {A} code e.
Arguments Call {A X} e k.

(** [try { const x = await e; ... } catch (e) { ctx.throw(500, e) }]. *)
Definition try_await {A X : Type} (e : PostE (JsError + X)) (k : X -> prog A) : prog A :=
  Call e (fun answer =>
            match answer with
            | inl err => Throw 500 err
            | inr x => k x
            end).

Notation "'await' x '<-' e ';;' k" :=
  (try_await e (fun x => k))
  (at level 10, x name, e at level 100, k at level 200,
   format "'[v' 'await'  x  '<-'  e  ';;' '/' k ']'").

(** How a handler ends. *)
Inductive Outcome (A : Type) : Type :=
| Done (a : A)
| Thrown (code : Z) (e : JsError).

Arguments Done {A} a.
Arguments Thrown {A} code e.

(** The status of the response Koa sends for an outcome. *)
Definition response_status (o : Outcome Ctx) : Z :=
  match o with
  | Done ctx => status ctx
  | Thrown code _ => code
  end.

(** The calls a program makes are answered by a store [h] over a state [W]. *)
Definition Store (W : Type) : Type := forall X : Type, PostE X -> W -> X * W.

Fixpoint run {W A : Type} (h : Store W) (p : prog A) (w : W) : Outcome A * W :=
  match p with
  | Ret a => (Done a, w)
  | Throw code e => (Thrown code e, w)
  | Call e k => let '(x, w') := h _ e w in run h (k x) w'
  end.

(** The awaited queries a program issues against a store, in order. *)
Inductive Query : Type :=
| Q : forall X : Type, PostE X -> Query.

Fixpoint queries {W A : Type} (h : Store W) (p : prog A) (w : W) : list Query :=
  match p with
  | Ret _ => []
  | Throw _ _ => []
  | Call e k => let '(x, w') := h _ e w in Q _ e :: queries h (k x) w'
  end.

(* ================================================================== *)
(** ** The controller *)

(** [post.body.length < 200 ? post.body : `${post.body.slice(0, 200)}...`] *)
Definition shorten_body (b : string) : string :=
  if (String.length b <? 200)%nat then b
  else String.append (String.substring 0 200 b) "...".

(** The second [map] of [list]: [{ ...post, body: ... }] on a plain object.
    Reading [length] of a missing body, or slicing a body that is not a
    string, is the TypeError the [try] block catches. *)
Definition shorten_post (post : jsval) : JsError + jsval :=
  match post with
  | JObj fields =>
      match assoc_get "body" fields with
      | Some (JStr b) => inr (JObj (assoc_set "body" (JStr (shorten_body b)) fields))
      | Some _ => inl (TypeError "post.body.slice is not a function")
      | None => inl (TypeError "Cannot read property 'length' of undefined")
      end
  | _ => inl (TypeError "Cannot read property 'length' of undefined")
  end.

(** [posts.map(f)] where [f] may throw: the first exception ends the map. *)
Fixpoint map_throwing {A B : Type} (f : A -> JsError + B) (l : list A)
  : JsError + list B :=
  match l with
  | [] => inr []
  | x :: rest =>
      match f x with
      | inl e => inl e
      | inr y =>
          match map_throwing f rest with
          | inl e => inl e
          | inr ys => inr (y :: ys)
          end
      end
  end.

Module PostsCtrl.

(** The id-format guard, a middleware in front of [next]. *)
Definition checkObjectId (ctx : Ctx) (next : Ctx -> prog Ctx) : prog Ctx :=
  let id := params_id ctx in
  if negb (ObjectId_isValid id) then
    Ret (set_status 400 ctx)
  else next ctx.

Definition write_schema : Schema :=
  Joi_object_keys
    [ ("title", Joi_required Joi_string);
      ("body", Joi_required Joi_string);
      ("tags", Joi_required (Joi_array_items Joi_string)) ].

(** POST /api/posts *)
Definition write (ctx : Ctx) : prog Ctx :=
  let schema := write_schema in
  let validation := Schema_validate schema (request_body ctx) in
  match validation with
  | Some error => Ret (set_body (BodyError error) (set_status 400 ctx))
  | None =>
      let title := obj_get "title" (request_body ctx) in
      let body := obj_get "body" (request_body ctx) in
      let tags := obj_get "tags" (request_body ctx) in
      Call (NewPost title body tags) (fun post =>
        await _ <- Save post ;;
        Ret (set_body (BodyPost post) ctx))
  end.

(** GET /api/posts/:id *)
Definition read (ctx : Ctx) : prog Ctx :=
  let id := params_id ctx in
  await post <- FindById id ;;
  match post with
  | None => Ret (set_status 404 ctx)
  | Some post => Ret (set_body (BodyPost post) ctx)
  end.

(** DELETE /api/posts/:id *)
Definition remove (ctx : Ctx) : prog Ctx :=
  let id := params_id ctx in
  await _ <- FindByIdAndRemove id ;;
  Ret (set_status 204 ctx).

Definition update_schema : Schema :=
  Joi_object_keys
    [ ("title", Joi_string);
      ("body", Joi_string);
      ("tags", Joi_array_items Joi_string) ].

(** PATCH /api/posts/:id *)
Definition update (ctx : Ctx) : prog Ctx :=
  let id := params_id ctx in
  let schema := update_schema in
  let validation := Schema_validate schema (request_body ctx) in
  match validation with
  | Some error => Ret (set_body (BodyError error) (set_status 400 ctx))
  | None =>
      await post <- FindByIdAndUpdate id (request_body ctx) true ;;
      match post with
      | None => Ret (set_status 404 ctx)
      | Some post => Ret (set_body (BodyPost post) ctx)
      end
  end.

(** [ctx.query.page || '1'] *)
Definition page_or_default (page : option string) : string :=
  match page with
  | Some EmptyString => "1"
  | Some s => s
  | None => "1"
  end.

(** GET /api/posts *)
Definition list (ctx : Ctx) : prog Ctx :=
  let page := parseInt (page_or_default (query_page ctx)) in
  if js_lt page (Num 1) then
    Ret (set_status 400 ctx)
  else
    await posts <- Find (-1) 10 (js_mul (js_sub page (Num 1)) (Num 10)) ;;
    await postCount <- CountDocuments ;;
    let ctx := set_header "Last-Page" (String_of_Z (Math_ceil_div postCount 10)) ctx in
    match map_throwing shorten_post (map toJSON posts) with
    | inl e => Throw 500 e
    | inr shortened => Ret (set_body (BodyPosts shortened) ctx)
    end.

End PostsCtrl.

(* ================================================================== *)
(** ** Earlier revisions of the controller

    The handlers as they were before request validation was added: [write]
    builds the post from whatever the body holds, [update] hands the body to
    the store as it came. *)

Module PostsCtrlEarlier.

(** POST /api/posts.  Destructuring a body that is [null] throws before the
    [try]; Koa answers an uncaught error with 500. *)
Definition write (ctx : Ctx) : prog Ctx :=
  match request_body ctx with
  | JNull => Throw 500 (TypeError "Cannot destructure property 'title' of null")
  | _ =>
      let title := obj_get "title" (request_body ctx) in
      let body := obj_get "body" (request_body ctx) in
      let tags := obj_get "tags" (request_body ctx) in
      Call (NewPost title body tags) (fun post =>
        await _ <- Save post ;;
        Ret (set_body (BodyPost post) ctx))
  end.

(** PATCH /api/posts/:id *)
Definition update (ctx : Ctx) : prog Ctx :=
  let id := params_id ctx in
  await post <- FindByIdAndUpdate id (request_body ctx) true ;;
  match post with
  | None => Ret (set_status 404 ctx)
  | Some post => Ret (set_body (BodyPost post) ctx)
  end.

End PostsCtrlEarlier.

(* ================================================================== *)
(** ** mongoose over an in-memory collection

    The store the handlers talk to: the collection of posts, the clock that
    feeds [Date.now] and the two counters an ObjectId is generated from.  A
    query is rejected only where mongoose or MongoDB reject it by
    themselves: an id that does not cast to an ObjectId, a duplicate [_id],
    an update of the immutable [_id], a value that does not cast to the
    schema type, a negative skip. *)

Record World : Type := mkWorld {
  collection : list Doc;
  Date_now : Z;
  oid_random : N;
  oid_counter : N
}.

(** A generated ObjectId: four bytes of seconds since the epoch, five random
    bytes of the process, three bytes of a counter. *)
Definition generate_ObjectId (w : World) : ObjectId :=
  ((Z.to_N (Date_now w / 1000) mod 2 ^ 32) * 2 ^ 64
   + (oid_random w mod 2 ^ 40) * 2 ^ 24
   + oid_counter w mod 2 ^ 24)%N.

(** Casting to the schema types [String] and [[String]], for what the
    validating controller constructs a post from: a title and a body that
    are strings, tags that are an array of strings; the cast leaves those as
    they are.  mongoose casts other values too (a number to its digits, a
    single value to an array of one) or refuses them at the save; the
    revisions without validation can hand such values over, and for them
    this definition does not stand for mongoose. *)
Definition cast_String (v : option jsval) : string :=
  match v with
  | Some (JStr s) => s
  | _ => EmptyString
  end.

Definition cast_Strings (v : option jsval) : list string :=
  match v with
  | Some (JArr items) => map (fun x => cast_String (Some x)) items
  | _ => []
  end.

(** [new Post({title, body, tags})]: a fresh id and the default
    [publishedData: Date.now]. *)
Definition new_Post (title body tags : option jsval) (w : World) : Doc :=
  mkDoc (generate_ObjectId w) (cast_String title) (cast_String body)
        (cast_Strings tags) (Date_now w).

Definition has_id (o : ObjectId) (d : Doc) : bool := (_id d =? o)%N.

(** MongoDB's order on [_id], descending. *)
Definition desc_leb (a b : Doc) : bool := (_id b <=? _id a)%N.

Module DescendingId <: TotalLeBool.
Definition t := Doc.
Definition leb := desc_leb.
Definition leb_total : forall a b, leb a b = true \/ leb b a = true.
Proof.
  intros a b. unfold leb, desc_leb. rewrite !N.leb_le. lia.
Defined.
End DescendingId.

Module SortDescending := Sort DescendingId.

(** [.sort({ _id: dir })] *)
Definition sort_by_id (dir : Z) (docs : list Doc) : option (list Doc) :=
  if dir =? -1 then Some (SortDescending.sort docs)
  else if dir =? 1 then Some (rev (SortDescending.sort docs))
  else None.

(** [.limit(n)]: zero is no limit, a negative limit counts as its absolute
    value. *)
Definition apply_limit (n : Z) (docs : list Doc) : list Doc :=
  if n =? 0 then docs else firstn (Z.to_nat (Z.abs n)) docs.

(** [Post.find().sort({_id: dir}).limit(limit).skip(skip).exec()]: the
    server sorts, then skips, then limits.  A skip that is not a number is
    sent by the driver as no skip at all. *)
Definition mongo_find (dir limit : Z) (skip : jsnum) (w : World) : JsError + list Doc :=
  match skip with
  | NaN =>
      match sort_by_id dir (collection w) with
      | None => inl (MongoError "bad sort specification")
      | Some sorted => inr (apply_limit limit sorted)
      end
  | Num n =>
      if n <? 0 then inl (MongoError "skip is negative")
      else
        match sort_by_id dir (collection w) with
        | None => inl (MongoError "bad sort specification")
        | Some sorted => inr (apply_limit limit (skipn (Z.to_nat n) sorted))
        end
  end.

Fixpoint remove_first (o : ObjectId) (docs : list Doc) : list Doc :=
  match docs with
  | [] => []
  | d :: rest => if has_id o d then rest else d :: remove_first o rest
  end.

Fixpoint replace_first (o : ObjectId) (d' : Doc) (docs : list Doc) : list Doc :=
  match docs with
  | [] => []
  | d :: rest => if has_id o d then d' :: rest else d :: replace_first o d' rest
  end.

Definition with_collection (docs : list Doc) (w : World) : World :=
  mkWorld docs (Date_now w) (oid_random w) (oid_counter w).

(** The [$set] of an update document on a stored post.  Every path of the
    schema that the update names is written, [publishedData] included; an
    [_id] other than the post's own is refused by the server.  The
    validating controller hands over only documents that name [title],
    [body] and [tags] with texts, and on those this is what mongoose does;
    it casts more values than are taken here (a date written as text, a
    number for a title), so for other documents this definition does not
    stand for mongoose. *)
Definition strings_of (items : list jsval) : option (list string) :=
  fold_right
    (fun x acc =>
       match x, acc with
       | JStr s, Some l => Some (s :: l)
       | _, _ => None
       end)
    (Some []) items.

Definition apply_update (update : jsval) (d : Doc) : JsError + Doc :=
  let id_ok :=
    match obj_get "_id" update with
    | None => true
    | Some (JOid o) => (o =? _id d)%N
    | Some (JStr s) =>
        match castObjectId s with Some o => (o =? _id d)%N | None => false end
    | Some _ => false
    end in
  let new_title :=
    match obj_get "title" update with
    | None => Some (title d)
    | Some (JStr s) => Some s
    | Some _ => None
    end in
  let new_body :=
    match obj_get "body" update with
    | None => Some (body d)
    | Some (JStr s) => Some s
    | Some _ => None
    end in
  let new_tags :=
    match obj_get "tags" update with
    | None => Some (tags d)
    | Some (JArr items) => strings_of items
    | Some _ => None
    end in
  let new_date :=
    match obj_get "publishedData" update with
    | None => Some (publishedData d)
    | Some (JDate t) => Some t
    | Some (JNum t) => Some t
    | Some _ => None
    end in
  if negb id_ok then inl (MongoError "_id is immutable")
  else
    match new_title, new_body, new_tags, new_date with
    | Some t, Some b, Some g, Some p => inr (mkDoc (_id d) t b g p)
    | None, _, _, _ => inl (CastError "title")
    | _, None, _, _ => inl (CastError "body")
    | _, _, None, _ => inl (CastError "tags")
    | _, _, _, None => inl (CastError "publishedData")
    end.

Definition mongo : Store World :=
  fun X e w =>
    match e in PostE X return X * World with
    | NewPost title body tags =>
        (new_Post title body tags w,
         mkWorld (collection w) (Date_now w) (oid_random w) (oid_counter w + 1)%N)
    | Save post =>
        if existsb (has_id (_id post)) (collection w)
        then (inl (MongoError "E11000 duplicate key"), w)
        else (inr tt, with_collection (collection w ++ [post]) w)
    | Find dir limit skip => (mongo_find dir limit skip w, w)
    | CountDocuments => (inr (Z.of_nat (List.length (collection w))), w)
    | FindById id =>
        match castObjectId id with
        | None => (inl (CastError "_id"), w)
        | Some o => (inr (find (has_id o) (collection w)), w)
        end
    | FindByIdAndRemove id =>
        match castObjectId id with
        | None => (inl (CastError "_id"), w)
        | Some o =>
            (inr (find (has_id o) (collection w)),
             with_collection (remove_first o (collection w)) w)
        end
    | FindByIdAndUpdate id update new =>
        match castObjectId id with
        | None => (inl (CastError "_id"), w)
        | Some o =>
            match find (has_id o) (collection w) with
            | None => (inr None, w)
            | Some d =>
                match apply_update update d with
                | inl err => (inl err, w)
                | inr d' =>
                    (inr (Some (if new then d' else d)),
                     with_collection (replace_first o d' (collection w)) w)
                end
            end
        end
    end.

(** The database out of reach: constructing a post is local and goes on as
    before, every query is rejected. *)
Definition unreachable : Store World :=
  fun X e w =>
    match e in PostE X return X * World with
    | NewPost title body tags => mongo _ (NewPost title body tags) w
    | Save _ => (inl (MongoError "connection refused"), w)
    | Find _ _ _ => (inl (MongoError "connection refused"), w)
    | CountDocuments => (inl (MongoError "connection refused"), w)
    | FindById _ => (inl (MongoError "connection refused"), w)
    | FindByIdAndRemove _ => (inl (MongoError "connection refused"), w)
    | FindByIdAndUpdate _ _ _ => (inl (MongoError "connection refused"), w)
    end.

(** The store's invariant: [_id] is a unique key of the collection. *)
Definition unique_ids (w : World) : Prop := NoDup (map _id (collection w)).

(* ================================================================== *)
(** ** Requests and pages the properties speak about *)

Definition is_string (v : jsval) : bool :=
  match v with JStr _ => true | _ => false end.

Definition is_string_array (v : jsval) : bool :=
  match v with JArr items => forallb is_string items | _ => false end.

(** A required field is missing, or a provided field has the wrong type. *)
Definition missing_or_mistyped (req : jsval) : bool :=
  match obj_get "title" req with None => true | Some v => negb (is_string v) end
  || match obj_get "body" req with None => true | Some v => negb (is_string v) end
  || match obj_get "tags" req with None => true | Some v => negb (is_string_array v) end.

(** [title] or [body] is present and is the empty string. *)
Definition has_empty_text (req : jsval) : bool :=
  match obj_get "title" req with Some (JStr EmptyString) => true | _ => false end
  || match obj_get "body" req with Some (JStr EmptyString) => true | _ => false end.

(** Most recent first: the order of a page. *)
Definition newer_first (a b : Doc) : Prop := (_id b <= _id a)%N.

(** A post as the list shows it: the post with its body shortened. *)
Definition listed_post (d : Doc) : jsval :=
  toJSON (mkDoc (_id d) (title d) (shorten_body (body d)) (tags d) (publishedData d)).

(** A text of [n] copies of one character. *)
Fixpoint replicate (n : nat) (c : ascii) : string :=
  match n with
  | O => EmptyString
  | S n' => String c (replicate n' c)
  end.

(** A text that is not empty, and an array of such texts. *)
Definition nonempty_string (v : jsval) : bool :=
  match v with JStr (String _ _) => true | _ => false end.

Definition nonempty_strings (v : jsval) : bool :=
  match v with JArr items => forallb nonempty_string items | _ => false end.

(** A property that must be there and fit, and one that fits if it is
    there. *)
Definition required_field (fits : jsval -> bool) (v : option jsval) : bool :=
  match v with Some x => fits x | None => false end.

Definition optional_field (fits : jsval -> bool) (v : option jsval) : bool :=
  match v with Some x => fits x | None => true end.

(** Every property of the object is one of [title], [body], [tags]. *)
Definition only_post_keys (fields : list (string * jsval)) : bool :=
  forallb (fun kv => existsb (String.eqb (fst kv)) ["title"; "body"; "tags"]) fields.

(** The bodies a create goes through with: an object with a non-empty text
    [title], a non-empty text [body], [tags] an array (possibly empty) of
    non-empty texts, and nothing else. *)
Definition acceptable_create (req : jsval) : bool :=
  match req with
  | JObj fields =>
      required_field nonempty_string (assoc_get "title" fields)
      && required_field nonempty_string (assoc_get "body" fields)
      && required_field nonempty_strings (assoc_get "tags" fields)
      && only_post_keys fields
  | _ => false
  end.

(** The bodies an update goes through with: the same, each field
    optional. *)
Definition acceptable_update (req : jsval) : bool :=
  match req with
  | JObj fields =>
      optional_field nonempty_string (assoc_get "title" fields)
      && optional_field nonempty_string (assoc_get "body" fields)
      && optional_field nonempty_strings (assoc_get "tags" fields)
      && only_post_keys fields
  | _ => false
  end.

(** The number a run of decimal digits spells, read after [acc]. *)
Fixpoint uint_value (d : Decimal.uint) (acc : Z) : Z :=
  match d with
  | Decimal.Nil => acc
  | Decimal.D0 l => uint_value l (10 * acc + 0)
  | Decimal.D1 l => uint_value l (10 * acc + 1)
  | Decimal.D2 l => uint_value l (10 * acc + 2)
  | Decimal.D3 l => uint_value l (10 * acc + 3)
  | Decimal.D4 l => uint_value l (10 * acc + 4)
  | Decimal.D5 l => uint_value l (10 * acc + 5)
  | Decimal.D6 l => uint_value l (10 * acc + 6)
  | Decimal.D7 l => uint_value l (10 * acc + 7)
  | Decimal.D8 l => uint_value l (10 * acc + 8)
  | Decimal.D9 l => uint_value l (10 * acc + 9)
  end.

(** The text goes on with a decimal digit. *)
Definition starts_with_digit (s : string) : bool :=
  match s with
  | String c _ => match digit_value c with Some _ => true | None => false end
  | EmptyString => false
  end.

(** The request for page [p] of the list, and what the list shows for it. *)
Definition page_request (p : Z) : Ctx :=
  createContext EmptyString (Some (String_of_Z p)) JNull.

Definition shown_page (w : World) (p : Z) : list jsval :=
  match fst (run mongo (PostsCtrl.list (page_request p)) w) with
  | Done ctx =>
      match response_body ctx with
      | Some (BodyPosts shown) => shown
      | _ => []
      end
  | Thrown _ _ => []
  end.

(* ================================================================== *)
(** ** Programs that end without a query *)

Lemma run_Ret {W A : Type} (h : Store W) (a : A) (w : W) :
  run h (Ret a) w = (Done a, w) /\ queries h (Ret a) w = [].
Proof. split; reflexivity. Qed.

(* ================================================================== *)
(** ** Facts about the validation schemas *)

Lemma validate_string_ok path v :
  validate_value Joi_string path (Some v) = None -> is_string v = true.
Proof.
  destruct v; simpl; try discriminate; reflexivity.
Qed.

Lemma validate_items_strings path items : forall i,
  validate_items (validate_value Joi_string) path items i = None ->
  forallb is_string items = true.
Proof.
  induction items as [|x rest IH]; intros i H; simpl in *.
  - reflexivity.
  - destruct x; try discriminate.
    destruct s; try discriminate.
    simpl. eapply IH; eassumption.
Qed.

Lemma validate_string_array_ok path v :
  validate_value (Joi_array_items Joi_string) path (Some v) = None ->
  is_string_array v = true.
Proof.
  destruct v; simpl; try discriminate.
  apply validate_items_strings.
Qed.

Lemma validate_required_ok s path v :
  validate_value (Joi_required s) path v = None ->
  exists x, v = Some x /\ validate_value s path (Some x) = None.
Proof.
  destruct v as [x|]; cbn [validate_value]; [|discriminate].
  intros H. exists x. split; [reflexivity|assumption].
Qed.

Lemma validate_keys_ok {S : Type} check path fields (keys : list (string * S)) :
  validate_keys check path fields keys = None ->
  Forall (fun ks => check (snd ks) (path ++ [inl (fst ks)])%list
                      (assoc_get (fst ks) fields) = None) keys.
Proof.
  induction keys as [|[k sk] rest IH]; cbn [validate_keys]; intros H.
  - constructor.
  - destruct (check sk (path ++ [inl k])%list (assoc_get k fields)) eqn:E;
      [discriminate|].
    constructor; [exact E | exact (IH H)].
Qed.

Lemma validate_object_ok keys path v :
  validate_value (Joi_object_keys keys) path (Some v) = None ->
  exists fields,
    v = JObj fields
    /\ validate_keys validate_value path fields keys = None
    /\ find (fun kv => negb (known_key keys kv)) fields = None.
Proof.
  destruct v; cbn [validate_value]; try discriminate.
  intros H. exists fields.
  destruct (validate_keys validate_value path fields keys); [discriminate|].
  destruct (find (fun kv => negb (known_key keys kv)) fields) as [[k x]|];
    [discriminate|].
  repeat split.
Qed.

(** A key the schema does not list is not a property of an accepted
    object. *)
Lemma no_unknown_key keys fields key :
  find (fun kv => negb (known_key keys kv)) fields = None ->
  existsb (String.eqb key) (map fst keys) = false ->
  assoc_get key fields = None.
Proof.
  intros Hfind Hkey.
  induction fields as [|[k x] rest IH]; cbn [assoc_get find] in *.
  - reflexivity.
  - destruct (negb (known_key keys (k, x))) eqn:E; [discriminate|].
    destruct (String.eqb k key) eqn:Ek.
    + apply String.eqb_eq in Ek. subst k.
      unfold known_key in E. cbn [fst] in E. rewrite Hkey in E. discriminate.
    + apply IH. exact Hfind.
Qed.

(** A body the write schema accepts is an object with the three fields, of
    the right types, and the texts are not empty. *)
Lemma write_schema_accepts req :
  Schema_validate PostsCtrl.write_schema req = None ->
  exists t b g,
    obj_get "title" req = Some (JStr t) /\ t <> EmptyString
    /\ obj_get "body" req = Some (JStr b) /\ b <> EmptyString
    /\ obj_get "tags" req = Some (JArr g) /\ forallb is_string g = true.
Proof.
  unfold Schema_validate, PostsCtrl.write_schema. intros H.
  apply validate_object_ok in H. destruct H as (fields & -> & Hkeys & _).
  apply validate_keys_ok in Hkeys.
  inversion_clear Hkeys as [|? ? Ht Hkeys']. inversion_clear Hkeys' as [|? ? Hb Hkeys''].
  inversion_clear Hkeys'' as [|? ? Hg _].
  cbn [fst snd] in Ht, Hb, Hg.
  apply validate_required_ok in Ht, Hb, Hg.
  destruct Ht as (t & Et & Ht), Hb as (b & Eb & Hb), Hg as (g & Eg & Hg).
  cbn [obj_get]. rewrite Et, Eb, Eg.
  destruct t as [| | |t| | | |]; try discriminate Ht.
  destruct b as [| | |b| | | |]; try discriminate Hb.
  pose proof (validate_string_array_ok _ _ Hg) as Hg'.
  destruct g as [| | | |g| | |]; try discriminate Hg'.
  exists t, b, g. repeat split; try assumption.
  - intros ->. discriminate Ht.
  - intros ->. discriminate Hb.
Qed.

Lemma write_schema_accepts_shape req :
  Schema_validate PostsCtrl.write_schema req = None ->
  missing_or_mistyped req = false /\ has_empty_text req = false.
Proof.
  intros H. apply write_schema_accepts in H.
  destruct H as (t & b & g & Et & Nt & Eb & Nb & Eg & Hg).
  unfold missing_or_mistyped, has_empty_text. rewrite Et, Eb, Eg.
  cbn [is_string is_string_array negb orb]. rewrite Hg.
  destruct t; [contradiction|]. destruct b; [contradiction|].
  split; reflexivity.
Qed.

Lemma write_schema_rejects req :
  missing_or_mistyped req = true \/ has_empty_text req = true ->
  exists error, Schema_validate PostsCtrl.write_schema req = Some error.
Proof.
  intros H.
  destruct (Schema_validate PostsCtrl.write_schema req) as [e|] eqn:E.
  - exists e. reflexivity.
  - apply write_schema_accepts_shape in E. destruct E as [E1 E2].
    rewrite E1, E2 in H. destruct H; discriminate.
Qed.

(** What [write] does with a body the schema rejects. *)
Lemma write_on_error ctx error :
  Schema_validate PostsCtrl.write_schema (request_body ctx) = Some error ->
  PostsCtrl.write ctx = Ret (set_body (BodyError error) (set_status 400 ctx)).
Proof.
  intros H. unfold PostsCtrl.write. rewrite H. reflexivity.
Qed.

(* ================================================================== *)
(** ** Create: validation failures *)

(** C1. A create request whose body misses [title], [body] or [tags], or
    gives one of them a value of the wrong type, is answered with status 400
    and the validation error as the response body; the handler ends without
    a single call to the store, so whatever the store is, it is left as it
    was and nothing is persisted. *)
Theorem write_rejects_missing_or_mistyped (ctx : Ctx) :
  missing_or_mistyped (request_body ctx) = true ->
  exists error ctx',
    Schema_validate PostsCtrl.write_schema (request_body ctx) = Some error
    /\ PostsCtrl.write ctx = Ret ctx'
    /\ status ctx' = 400
    /\ response_body ctx' = Some (BodyError error)
    /\ forall (W : Type) (h : Store W) (w : W),
         run h (PostsCtrl.write ctx) w = (Done ctx', w)
         /\ queries h (PostsCtrl.write ctx) w = [].
Proof.
  intros H.
  destruct (write_schema_rejects (request_body ctx) (or_introl H)) as [error E].
  exists error, (set_body (BodyError error) (set_status 400 ctx)).
  rewrite (write_on_error ctx error E).
  repeat split.
  exact E.
Qed.

Lemma write_rejects_missing_or_mistyped_witness :
  missing_or_mistyped (JObj [("title", JStr "T"); ("tags", JArr [JNum 1])]) = true
  /\ exists error ctx',
       PostsCtrl.write
         (createContext "" None (JObj [("title", JStr "T"); ("tags", JArr [JNum 1])]))
       = Ret ctx'
       /\ status ctx' = 400 /\ response_body ctx' = Some (BodyError error).
Proof.
  split; [reflexivity|].
  destruct (write_rejects_missing_or_mistyped
              (createContext "" None (JObj [("title", JStr "T"); ("tags", JArr [JNum 1])]))
              eq_refl)
    as (error & ctx' & _ & Hp & Hs & Hb & _).
  exists error, ctx'. repeat split; assumption.
Defined.

(** C10. A create request whose [title] or [body] is present but is the
    empty string is answered with status 400 and nothing is persisted: the
    schema's [Joi.string()] does not accept the empty string. *)
Theorem write_rejects_empty_text (ctx : Ctx) :
  has_empty_text (request_body ctx) = true ->
  exists error ctx',
    Schema_validate PostsCtrl.write_schema (request_body ctx) = Some error
    /\ PostsCtrl.write ctx = Ret ctx'
    /\ status ctx' = 400
    /\ response_body ctx' = Some (BodyError error)
    /\ forall (W : Type) (h : Store W) (w : W),
         run h (PostsCtrl.write ctx) w = (Done ctx', w)
         /\ queries h (PostsCtrl.write ctx) w = [].
Proof.
  intros H.
  destruct (write_schema_rejects (request_body ctx) (or_intror H)) as [error E].
  exists error, (set_body (BodyError error) (set_status 400 ctx)).
  rewrite (write_on_error ctx error E).
  repeat split.
  exact E.
Qed.

Lemma write_rejects_empty_text_witness :
  has_empty_text
    (JObj [("title", JStr "T"); ("body", JStr ""); ("tags", JArr [])]) = true
  /\ exists error ctx',
       PostsCtrl.write
         (createContext "" None
            (JObj [("title", JStr "T"); ("body", JStr ""); ("tags", JArr [])]))
       = Ret ctx'
       /\ status ctx' = 400 /\ response_body ctx' = Some (BodyError error).
Proof.
  split; [reflexivity|].
  destruct (write_rejects_empty_text
              (createContext "" None
                 (JObj [("title", JStr "T"); ("body", JStr ""); ("tags", JArr [])]))
              eq_refl)
    as (error & ctx' & _ & Hp & Hs & Hb & _).
  exists error, ctx'. repeat split; assumption.
Defined.

(* ================================================================== *)
(** ** The id-format guard *)

(** C4. For an id that [ObjectId.isValid] refuses, the guard answers 400 by
    itself: its result does not depend on the wrapped operation, which is
    not run, and no store is touched.  For an id it accepts, the guard is
    the wrapped operation on the unchanged context. *)
Theorem checkObjectId_guards (ctx : Ctx) (next : Ctx -> prog Ctx) :
  (ObjectId_isValid (params_id ctx) = false ->
     PostsCtrl.checkObjectId ctx next = Ret (set_status 400 ctx)
     /\ status (set_status 400 ctx) = 400
     /\ forall (W : Type) (h : Store W) (w : W),
          run h (PostsCtrl.checkObjectId ctx next) w = (Done (set_status 400 ctx), w)
          /\ queries h (PostsCtrl.checkObjectId ctx next) w = [])
  /\ (ObjectId_isValid (params_id ctx) = true ->
        PostsCtrl.checkObjectId ctx next = next ctx).
Proof.
  unfold PostsCtrl.checkObjectId. split; intros H; rewrite H; cbn [negb].
  - repeat split.
  - reflexivity.
Qed.

Lemma checkObjectId_guards_witness :
  (ObjectId_isValid "abc" = false
   /\ PostsCtrl.checkObjectId (createContext "abc" None JNull) PostsCtrl.read
      = Ret (set_status 400 (createContext "abc" None JNull)))
  /\ (ObjectId_isValid "5f60b4000000000007000000" = true
      /\ PostsCtrl.checkObjectId
           (createContext "5f60b4000000000007000000" None JNull) PostsCtrl.read
         = PostsCtrl.read (createContext "5f60b4000000000007000000" None JNull)).
Proof.
  split.
  - split; [reflexivity|].
    apply (proj1 (checkObjectId_guards (createContext "abc" None JNull) PostsCtrl.read)).
    reflexivity.
  - split; [reflexivity|].
    apply (proj2 (checkObjectId_guards
                    (createContext "5f60b4000000000007000000" None JNull)
                    PostsCtrl.read)).
    reflexivity.
Defined.

(* ================================================================== *)
(** ** List: the page number *)

(** C8. When the page number the handler parses is below 1, the handler
    answers 400 with no body and ends without a query. *)
Theorem list_rejects_page_below_1 (id : string) (page : option string) (req : jsval) (p : Z) :
  parseInt (PostsCtrl.page_or_default page) = Num p ->
  p < 1 ->
  exists ctx',
    PostsCtrl.list (createContext id page req) = Ret ctx'
    /\ status ctx' = 400
    /\ response_body ctx' = None
    /\ forall (W : Type) (h : Store W) (w : W),
         run h (PostsCtrl.list (createContext id page req)) w = (Done ctx', w)
         /\ queries h (PostsCtrl.list (createContext id page req)) w = [].
Proof.
  intros Hpage Hp.
  exists (set_status 400 (createContext id page req)).
  unfold PostsCtrl.list. cbn [query_page createContext].
  rewrite Hpage. cbn [js_lt].
  apply Z.ltb_lt in Hp. rewrite Hp.
  repeat split.
Qed.

Lemma list_rejects_page_below_1_witness :
  parseInt (PostsCtrl.page_or_default (Some "-3")) = Num (-3)
  /\ -3 < 1
  /\ exists ctx',
       PostsCtrl.list (createContext "" (Some "-3") JNull) = Ret ctx'
       /\ status ctx' = 400 /\ response_body ctx' = None.
Proof.
  split; [reflexivity|]. split; [lia|].
  destruct (list_rejects_page_below_1 "" (Some "-3") JNull (-3) eq_refl eq_refl)
    as (ctx' & Hp & Hs & Hb & _).
  exists ctx'. repeat split; assumption.
Defined.

(** C9. When the page parameter is a non-empty string that [parseInt] turns
    into [NaN], the test [page < 1] is false: the handler's first step is the
    store query, with a [NaN] skip, and whatever the store answers the
    response status is not 400 (it is 200 or 500). *)
Theorem list_NaN_page_reaches_store (id : string) (s : string) (req : jsval) :
  s <> EmptyString ->
  parseInt s = NaN ->
  (exists k, PostsCtrl.list (createContext id (Some s) req) = Call (Find (-1) 10 NaN) k)
  /\ forall (W : Type) (h : Store W) (w : W),
       response_status (fst (run h (PostsCtrl.list (createContext id (Some s) req)) w)) <> 400
       /\ exists rest,
            queries h (PostsCtrl.list (createContext id (Some s) req)) w
            = Q _ (Find (-1) 10 NaN) :: rest.
Proof.
  intros Hs Hnan.
  assert (Hpage : PostsCtrl.page_or_default (Some s) = s)
    by (destruct s; [contradiction|reflexivity]).
  unfold PostsCtrl.list. cbn [query_page createContext].
  rewrite Hpage, Hnan. cbn [js_lt js_sub js_mul].
  split.
  - eexists. reflexivity.
  - intros W h w. unfold try_await. cbn [run queries].
    destruct (h _ (Find (-1) 10 NaN) w) as [[e|posts] w1].
    + cbn. split; [discriminate|eexists; reflexivity].
    + cbn [run queries].
      destruct (h _ CountDocuments w1) as [[e|postCount] w2].
      * cbn. split; [discriminate|eexists; reflexivity].
      * destruct (map_throwing shorten_post (map toJSON posts)) as [e|shortened].
        -- cbn. split; [discriminate|eexists; reflexivity].
        -- cbn. split; [discriminate|eexists; reflexivity].
Qed.

Lemma list_NaN_page_reaches_store_witness :
  "abc" <> EmptyString
  /\ parseInt "abc" = NaN
  /\ exists k, PostsCtrl.list (createContext "" (Some "abc") JNull)
               = Call (Find (-1) 10 NaN) k.
Proof.
  split; [discriminate|]. split; [reflexivity|].
  apply (list_NaN_page_reaches_store "" "abc" JNull); [discriminate|reflexivity].
Defined.

(* ================================================================== *)
(** ** ObjectIds and their hexadecimal form *)

Lemma hex_value_digit d : (d < 16)%N -> hex_value (hex_digit d) = Some d.
Proof.
  intros H.
  destruct d as [|p]; [reflexivity|].
  do 4 (destruct p as [p|p|]; try reflexivity; try lia).
Qed.

Lemma parse_hex_digits n : forall v suffix acc,
  parse_hex (hex_digits n v suffix) acc
  = parse_hex suffix (acc * 16 ^ N.of_nat n + v mod 16 ^ N.of_nat n)%N.
Proof.
  induction n as [|n IH]; intros v suffix acc.
  - cbn [hex_digits]. change (N.of_nat 0) with 0%N.
    rewrite N.pow_0_r, N.mod_1_r. f_equal. lia.
  - cbn [hex_digits]. rewrite IH. cbn [parse_hex].
    rewrite hex_value_digit by (apply N.mod_lt; lia).
    f_equal.
    rewrite Nat2N.inj_succ, N.pow_succ_r'.
    rewrite (N.Div0.mod_mul_r v 16 (16 ^ N.of_nat n)).
    lia.
Qed.

Lemma length_hex_digits n : forall v suffix,
  String.length (hex_digits n v suffix) = (n + String.length suffix)%nat.
Proof.
  induction n as [|n IH]; intros v suffix; cbn [hex_digits].
  - reflexivity.
  - rewrite IH. cbn [String.length]. lia.
Qed.

Lemma all_hex_hex_digits n : forall v suffix,
  all_hex (hex_digits n v suffix) = all_hex suffix.
Proof.
  induction n as [|n IH]; intros v suffix; cbn [hex_digits].
  - reflexivity.
  - rewrite IH. cbn [all_hex].
    rewrite hex_value_digit by (apply N.mod_lt; lia). reflexivity.
Qed.

Lemma length_toHexString o : String.length (toHexString o) = 24%nat.
Proof. unfold toHexString. rewrite length_hex_digits. reflexivity. Qed.

(** The id a client is given casts back to the ObjectId it was made from. *)
Lemma castObjectId_toHexString o :
  (o < 2 ^ 96)%N -> castObjectId (toHexString o) = Some o.
Proof.
  intros H. unfold castObjectId.
  rewrite length_toHexString. unfold toHexString.
  rewrite all_hex_hex_digits. cbn [all_hex Nat.eqb andb].
  rewrite parse_hex_digits. cbn [parse_hex]. f_equal.
  change (N.of_nat 24) with 24%N. change (16 ^ 24)%N with (2 ^ 96)%N.
  rewrite N.mod_small by exact H. lia.
Qed.

Lemma generate_ObjectId_bound w : (generate_ObjectId w < 2 ^ 96)%N.
Proof.
  unfold generate_ObjectId.
  pose proof (N.mod_lt (Z.to_N (Date_now w / 1000)) (2 ^ 32)) as H1.
  pose proof (N.mod_lt (oid_random w) (2 ^ 40)) as H2.
  pose proof (N.mod_lt (oid_counter w) (2 ^ 24)) as H3.
  change (2 ^ 96)%N with (2 ^ 32 * 2 ^ 64)%N.
  change (2 ^ 64)%N with (2 ^ 40 * 2 ^ 24)%N.
  nia.
Qed.

Lemma parse_hex_all_hex s : forall acc,
  all_hex s = true -> exists o, parse_hex s acc = Some o.
Proof.
  induction s as [|c rest IH]; intros acc H; cbn [parse_hex all_hex] in *.
  - exists acc. reflexivity.
  - destruct (hex_value c); [|discriminate]. apply IH. exact H.
Qed.

(** The guard's test and the store's cast agree on every string. *)
Lemma isValid_iff_cast id :
  ObjectId_isValid id = true <-> exists o, castObjectId id = Some o.
Proof.
  unfold ObjectId_isValid, castObjectId.
  destruct ((String.length id =? 24)%nat && all_hex id)%bool eqn:E24.
  - rewrite orb_true_r. split; [|reflexivity]. intros _.
    apply andb_prop in E24. destruct E24 as [_ Hhex].
    apply parse_hex_all_hex. exact Hhex.
  - rewrite orb_false_r.
    destruct (String.length id =? 12)%nat.
    + split; [|reflexivity]. intros _. eexists. reflexivity.
    + split; [discriminate|]. intros [o Ho]. discriminate.
Qed.

(* ================================================================== *)
(** ** Facts about the collection *)

Lemma has_id_eq o d : has_id o d = true <-> _id d = o.
Proof. unfold has_id. apply N.eqb_eq. Qed.

Lemma find_has_id o docs d :
  find (has_id o) docs = Some d -> _id d = o /\ In d docs.
Proof.
  intros H. apply find_some in H. destruct H as [Hin Hid].
  split; [apply has_id_eq; exact Hid | exact Hin].
Qed.

Lemma find_absent o docs :
  ~ In o (map _id docs) -> find (has_id o) docs = None.
Proof.
  induction docs as [|d rest IH]; cbn [find map In]; intros H.
  - reflexivity.
  - destruct (has_id o d) eqn:E.
    + apply has_id_eq in E. exfalso. apply H. left. exact E.
    + apply IH. intros Hin. apply H. right. exact Hin.
Qed.

Lemma existsb_has_id_false o docs :
  existsb (has_id o) docs = false -> find (has_id o) docs = None.
Proof.
  induction docs as [|d rest IH]; cbn [existsb find]; intros H.
  - reflexivity.
  - apply orb_false_elim in H. destruct H as [H1 H2]. rewrite H1. exact (IH H2).
Qed.

Lemma not_in_ids o docs :
  existsb (has_id o) docs = false -> ~ In o (map _id docs).
Proof.
  induction docs as [|d rest IH]; cbn [existsb map In]; intros H.
  - intros [].
  - apply orb_false_elim in H. destruct H as [H1 H2].
    intros [E|Hin].
    + apply has_id_eq in E. rewrite E in H1. discriminate H1.
    + exact (IH H2 Hin).
Qed.

(** A post saved under a fresh id is the one found under that id. *)
Lemma find_appended docs post :
  existsb (has_id (_id post)) docs = false ->
  find (has_id (_id post)) (docs ++ [post]) = Some post.
Proof.
  induction docs as [|d rest IH]; cbn [existsb find app]; intros H.
  - unfold has_id. rewrite N.eqb_refl. reflexivity.
  - apply orb_false_elim in H. destruct H as [H1 H2]. rewrite H1. exact (IH H2).
Qed.

(** Under unique ids nothing is left under a removed id. *)
Lemma find_remove_first o docs :
  NoDup (map _id docs) -> find (has_id o) (remove_first o docs) = None.
Proof.
  induction docs as [|d rest IH]; cbn [remove_first map]; intros H.
  - reflexivity.
  - inversion_clear H as [|? ? Hnotin Hrest].
    destruct (has_id o d) eqn:E.
    + apply has_id_eq in E. subst o. apply find_absent. exact Hnotin.
    + cbn [find]. rewrite E. apply IH. exact Hrest.
Qed.

Lemma find_replace_first o d' docs d :
  find (has_id o) docs = Some d -> _id d' = o ->
  find (has_id o) (replace_first o d' docs) = Some d'.
Proof.
  intros Hfind Hid.
  induction docs as [|x rest IH]; cbn [find replace_first] in *.
  - discriminate.
  - destruct (has_id o x) eqn:E.
    + cbn [find]. apply has_id_eq in Hid. rewrite Hid. reflexivity.
    + cbn [find]. rewrite E. apply IH. exact Hfind.
Qed.

Lemma map_id_remove_first o docs :
  NoDup (map _id docs) -> NoDup (map _id (remove_first o docs)).
Proof.
  induction docs as [|d rest IH]; cbn [remove_first map]; intros H.
  - constructor.
  - inversion_clear H as [|? ? Hnotin Hrest].
    destruct (has_id o d).
    + exact Hrest.
    + cbn [map]. constructor; [|apply IH; exact Hrest].
      intros Hin. apply Hnotin.
      clear - Hin. induction rest as [|x rest IH]; cbn [remove_first map In] in *.
      * exact Hin.
      * destruct (has_id o x); cbn [map In] in *.
        -- right. exact Hin.
        -- destruct Hin as [Hin|Hin]; [left; exact Hin | right; exact (IH Hin)].
Qed.

Lemma map_id_replace_first o d' docs :
  _id d' = o -> map _id (replace_first o d' docs) = map _id docs.
Proof.
  intros Hid.
  induction docs as [|d rest IH]; cbn [replace_first map].
  - reflexivity.
  - destruct (has_id o d) eqn:E; cbn [map].
    + apply has_id_eq in E. congruence.
    + rewrite IH. reflexivity.
Qed.

(** Texts and tags of an accepted body cast to themselves. *)
Lemma cast_Strings_strings g :
  forallb is_string g = true ->
  map JStr (cast_Strings (Some (JArr g))) = g.
Proof.
  cbn [cast_Strings]. induction g as [|x rest IH]; cbn [forallb map]; intros H.
  - reflexivity.
  - apply andb_prop in H. destruct H as [Hx Hrest].
    destruct x; try discriminate Hx. rewrite (IH Hrest). reflexivity.
Qed.

Lemma strings_of_strings g :
  forallb is_string g = true ->
  exists l, strings_of g = Some l /\ map JStr l = g.
Proof.
  induction g as [|x rest IH]; cbn [forallb]; intros H.
  - exists []. split; reflexivity.
  - apply andb_prop in H. destruct H as [Hx Hrest].
    destruct (IH Hrest) as (l & Hl & Hmap).
    destruct x; try discriminate Hx.
    exists (s :: l). unfold strings_of in *. cbn [fold_right]. rewrite Hl.
    split; [reflexivity|]. cbn [map]. rewrite Hmap. reflexivity.
Qed.

(* ================================================================== *)
(** ** Create, then read *)

Lemma generate_ObjectId_seconds w :
  (generate_ObjectId w / 2 ^ 64 = Z.to_N (Date_now w / 1000) mod 2 ^ 32)%N.
Proof.
  unfold generate_ObjectId.
  pose proof (N.mod_lt (oid_random w) (2 ^ 40)) as H2.
  pose proof (N.mod_lt (oid_counter w) (2 ^ 24)) as H3.
  symmetry.
  apply (N.div_unique _ _ _ ((oid_random w mod 2 ^ 40) * 2 ^ 24 + oid_counter w mod 2 ^ 24)).
  - change (2 ^ 64)%N with (2 ^ 40 * 2 ^ 24)%N. nia.
  - lia.
Qed.

Lemma save_accepted_fresh post w :
  fst (mongo _ (Save post) w) = inr tt ->
  existsb (has_id (_id post)) (collection w) = false.
Proof.
  cbn [mongo]. destruct (existsb (has_id (_id post)) (collection w)).
  - cbn [fst]. discriminate.
  - reflexivity.
Qed.

(** C7, as the code has it.  A create request with a valid body, the save
    of which the store accepts, is answered with status 200 and the created
    post: its title, body and tags are the submitted ones; its id is the one
    generated for it, which begins with the seconds of the creation time, is
    the id of no post stored before and is not empty in the form the client
    sees (twenty-four hexadecimal digits, under the key [_id]); its timestamp
    (the schema's field [publishedData]) is the time of creation.  The post
    is added to the collection, and reading the id the client was given
    answers 200 with the same post and leaves the store as it is. *)
Theorem write_then_read (w : World) (id : string) (page : option string)
    (req : jsval) (page' : option string) (req' : jsval) :
  Schema_validate PostsCtrl.write_schema req = None ->
  fst (mongo _ (Save (new_Post (obj_get "title" req) (obj_get "body" req)
                               (obj_get "tags" req) w)) w)
  = inr tt ->
  exists post ctx' w',
    run mongo (PostsCtrl.write (createContext id page req)) w = (Done ctx', w')
    /\ status ctx' = 200
    /\ response_body ctx' = Some (BodyPost post)
    /\ obj_get "title" req = Some (JStr (title post))
    /\ obj_get "body" req = Some (JStr (body post))
    /\ obj_get "tags" req = Some (JArr (map JStr (tags post)))
    /\ _id post = generate_ObjectId w
    /\ (_id post / 2 ^ 64 = Z.to_N (Date_now w / 1000) mod 2 ^ 32)%N
    /\ ~ In (_id post) (map _id (collection w))
    /\ String.length (toHexString (_id post)) = 24%nat
    /\ publishedData post = Date_now w
    /\ obj_get "_id" (toJSON post) = Some (JOid (_id post))
    /\ obj_get "publishedData" (toJSON post) = Some (JDate (Date_now w))
    /\ collection w' = (collection w ++ [post])%list
    /\ exists ctx'',
         run mongo
           (PostsCtrl.read (createContext (toHexString (_id post)) page' req')) w'
         = (Done ctx'', w')
         /\ status ctx'' = 200
         /\ response_body ctx'' = Some (BodyPost post).
Proof.
  intros Hvalid Haccepted.
  apply save_accepted_fresh in Haccepted. cbn [new_Post _id] in Haccepted.
  rename Haccepted into Hfresh.
  destruct (write_schema_accepts req Hvalid)
    as (t & b & g & Et & _ & Eb & _ & Eg & Hg).
  exists (new_Post (Some (JStr t)) (Some (JStr b)) (Some (JArr g)) w).
  unfold PostsCtrl.write. cbn [request_body createContext].
  rewrite Hvalid, Et, Eb, Eg.
  unfold try_await. cbn [run mongo].
  cbn [collection new_Post _id]. rewrite Hfresh.
  do 2 eexists. split; [reflexivity|].
  cbn [status set_body createContext explicitStatus response_body
       title body tags publishedData _id new_Post cast_String].
  repeat (split; [reflexivity|]).
  split; [rewrite (cast_Strings_strings g Hg); reflexivity|].
  split; [reflexivity|].
  split; [apply generate_ObjectId_seconds|].
  split; [apply not_in_ids; exact Hfresh|].
  split; [apply length_toHexString|].
  repeat (split; [reflexivity|]).
  unfold PostsCtrl.read. cbn [params_id createContext].
  unfold try_await. cbn [run mongo].
  rewrite (castObjectId_toHexString _ (generate_ObjectId_bound w)).
  cbn [collection with_collection].
  pose proof (find_appended (collection w)
                (new_Post (Some (JStr t)) (Some (JStr b)) (Some (JArr g)) w)
                Hfresh) as Hfind.
  change (_id (new_Post (Some (JStr t)) (Some (JStr b)) (Some (JArr g)) w))
    with (generate_ObjectId w) in Hfind.
  rewrite Hfind.
  eexists. split; [reflexivity|]. split; reflexivity.
Qed.

Lemma write_then_read_witness :
  exists post ctx' w' ctx'',
    run mongo
      (PostsCtrl.write
         (createContext "" None
            (JObj [("title", JStr "T"); ("body", JStr "B");
                   ("tags", JArr [JStr "x"; JStr "y"])])))
      (mkWorld [mkDoc 1%N "T1" "B1" [] 0] 1600000000000 7 5)
    = (Done ctx', w')
    /\ status ctx' = 200
    /\ response_body ctx' = Some (BodyPost post)
    /\ post = mkDoc 29514790517935282585717440517%N "T" "B" ["x"; "y"] 1600000000000
    /\ toHexString (_id post) = "5f5e10000000000007000005"
    /\ collection w' = [mkDoc 1%N "T1" "B1" [] 0; post]
    /\ run mongo
         (PostsCtrl.read (createContext "5f5e10000000000007000005" None JNull)) w'
       = (Done ctx'', w')
    /\ status ctx'' = 200
    /\ response_body ctx'' = Some (BodyPost post).
Proof.
  destruct (write_then_read (mkWorld [mkDoc 1%N "T1" "B1" [] 0] 1600000000000 7 5)
              "" None
              (JObj [("title", JStr "T"); ("body", JStr "B");
                     ("tags", JArr [JStr "x"; JStr "y"])])
              None JNull eq_refl eq_refl)
    as (post & ctx' & w' & Hrun & Hs & Hb & Ht & Hbd & Hg & Hid & _ & _ & _ & Hdate
        & _ & _ & Hcoll & ctx'' & Hread & Hs' & Hb').
  assert (Hpost : post
                  = mkDoc 29514790517935282585717440517%N "T" "B" ["x"; "y"] 1600000000000).
  { cbn [obj_get assoc_get String.eqb Ascii.eqb Bool.eqb] in Ht, Hbd, Hg.
    injection Ht as Ht. injection Hbd as Hbd. injection Hg as Hg.
    destruct post as [i t b g d]. cbn [_id title body tags publishedData] in *.
    destruct g as [|x [|y [|z rest]]]; try discriminate Hg.
    injection Hg as Hx Hy. subst. reflexivity. }
  exists post, ctx', w', ctx''.
  split; [exact Hrun|]. split; [exact Hs|]. split; [exact Hb|].
  split; [exact Hpost|].
  assert (Hhex : toHexString (_id post) = "5f5e10000000000007000005")
    by (rewrite Hpost; reflexivity).
  split; [exact Hhex|].
  split; [rewrite Hcoll; reflexivity|].
  rewrite <- Hhex. split; [exact Hread|]. split; assumption.
Defined.

(** C7 does not hold for every valid create request: when the store
    rejects the save, for one because the database is out of reach, the
    handler's [catch] answers 500 and no post comes back.  And where the
    create succeeds, the post in the answer has its id under the key [_id]
    and its timestamp under [publishedData]; it has no [id] and no
    [publishedDate]. *)
Lemma valid_create_save_rejected :
  Schema_validate PostsCtrl.write_schema
    (JObj [("title", JStr "T"); ("body", JStr "B"); ("tags", JArr [JStr "x"; JStr "y"])])
  = None
  /\ run unreachable
       (PostsCtrl.write
          (createContext "" None
             (JObj [("title", JStr "T"); ("body", JStr "B");
                    ("tags", JArr [JStr "x"; JStr "y"])])))
       (mkWorld [] 1600000000000 7 0)
     = (Thrown 500 (MongoError "connection refused"), mkWorld [] 1600000000000 7 1)
  /\ exists post ctx' w',
       run mongo
         (PostsCtrl.write
            (createContext "" None
               (JObj [("title", JStr "T"); ("body", JStr "B");
                      ("tags", JArr [JStr "x"; JStr "y"])])))
         (mkWorld [] 1600000000000 7 0)
       = (Done ctx', w')
       /\ response_body ctx' = Some (BodyPost post)
       /\ obj_get "id" (toJSON post) = None
       /\ obj_get "publishedDate" (toJSON post) = None.
Proof.
  split; [reflexivity|]. split; [reflexivity|].
  do 3 eexists. split; [reflexivity|]. split; [reflexivity|]. split; reflexivity.
Qed.

(* ================================================================== *)
(** ** Remove, then read *)

(** C6, as the code has it.  For an id that is syntactically valid, the
    remove handler answers 204 with no body whether or not a post with that
    id is in the collection; afterwards, the collection having unique ids,
    reading the same id answers 404 with no body. *)
Theorem remove_valid_id_then_read (w : World) (id : string)
    (page : option string) (req : jsval) (page' : option string) (req' : jsval) :
  ObjectId_isValid id = true ->
  unique_ids w ->
  exists ctx' w',
    run mongo (PostsCtrl.remove (createContext id page req)) w = (Done ctx', w')
    /\ status ctx' = 204
    /\ response_body ctx' = None
    /\ unique_ids w'
    /\ exists ctx'',
         run mongo (PostsCtrl.read (createContext id page' req')) w' = (Done ctx'', w')
         /\ status ctx'' = 404
         /\ response_body ctx'' = None.
Proof.
  intros Hvalid Huniq.
  apply isValid_iff_cast in Hvalid. destruct Hvalid as [o Ho].
  unfold PostsCtrl.remove, PostsCtrl.read. cbn [params_id createContext].
  unfold try_await. cbn [run mongo]. rewrite Ho.
  do 2 eexists. split; [reflexivity|].
  split; [reflexivity|]. split; [reflexivity|].
  split; [exact (map_id_remove_first o (collection w) Huniq)|].
  cbn [collection with_collection].
  rewrite (find_remove_first o (collection w) Huniq).
  eexists. split; [reflexivity|]. split; reflexivity.
Qed.

Lemma remove_valid_id_then_read_witness :
  exists ctx' w',
    run mongo
      (PostsCtrl.remove (createContext "5f60b4000000000007000000" None JNull))
      (mkWorld [mkDoc 29517982837677702465881899008%N "T" "B" [] 0] 0 0 0)
    = (Done ctx', w')
    /\ status ctx' = 204
    /\ response_body ctx' = None.
Proof.
  destruct (remove_valid_id_then_read
              (mkWorld [mkDoc 29517982837677702465881899008%N "T" "B" [] 0] 0 0 0)
              "5f60b4000000000007000000" None JNull None JNull eq_refl)
    as (ctx' & w' & Hrun & Hs & Hb & _).
  - unfold unique_ids. cbn [collection map _id].
    constructor; [intros []|constructor].
  - exists ctx', w'. repeat split; assumption.
Defined.

(** C6 does not hold for every id: an id that does not cast to an ObjectId
    makes the query reject, and the handler's [catch] turns the rejection
    into status 500. *)
Lemma remove_malformed_id_is_500 :
  response_status
    (fst (run mongo (PostsCtrl.remove (createContext "abc" None JNull))
            (mkWorld [] 0 0 0)))
  = 500
  /\ ~ (forall (id : string) (w : World),
          response_status
            (fst (run mongo (PostsCtrl.remove (createContext id None JNull)) w))
          = 204).
Proof.
  split; [reflexivity|].
  intros H. specialize (H "abc" (mkWorld [] 0 0 0)). discriminate H.
Qed.

(* ================================================================== *)
(** ** Update *)

Lemma validate_optional_string path v :
  validate_value Joi_string path v = None ->
  v = None \/ exists s, v = Some (JStr s).
Proof.
  destruct v as [x|]; [|left; reflexivity].
  intros H. right. destruct x; try discriminate H. exists s. reflexivity.
Qed.

Lemma validate_optional_strings path v :
  validate_value (Joi_array_items Joi_string) path v = None ->
  v = None \/ exists g, v = Some (JArr g) /\ forallb is_string g = true.
Proof.
  destruct v as [x|]; [|left; reflexivity].
  intros H. right. pose proof (validate_string_array_ok _ _ H) as Hx.
  destruct x; try discriminate Hx. exists items. split; [reflexivity|exact Hx].
Qed.

(** A body the update schema accepts is an object whose only properties are
    a text [title], a text [body] and [tags] that are texts; in particular
    it names neither [_id] nor [publishedData]. *)
Lemma update_schema_accepts req :
  Schema_validate PostsCtrl.update_schema req = None ->
  (obj_get "title" req = None \/ exists s, obj_get "title" req = Some (JStr s))
  /\ (obj_get "body" req = None \/ exists s, obj_get "body" req = Some (JStr s))
  /\ (obj_get "tags" req = None
      \/ exists g, obj_get "tags" req = Some (JArr g) /\ forallb is_string g = true)
  /\ obj_get "_id" req = None
  /\ obj_get "publishedData" req = None.
Proof.
  unfold Schema_validate, PostsCtrl.update_schema. intros H.
  apply validate_object_ok in H. destruct H as (fields & -> & Hkeys & Hunknown).
  apply validate_keys_ok in Hkeys.
  inversion_clear Hkeys as [|? ? Ht Hkeys']. inversion_clear Hkeys' as [|? ? Hb Hkeys''].
  inversion_clear Hkeys'' as [|? ? Hg _].
  cbn [fst snd] in Ht, Hb, Hg. cbn [obj_get].
  split; [exact (validate_optional_string _ _ Ht)|].
  split; [exact (validate_optional_string _ _ Hb)|].
  split; [exact (validate_optional_strings _ _ Hg)|].
  split; apply (no_unknown_key _ _ _ Hunknown); reflexivity.
Qed.

(** What the store writes for an accepted update document. *)
Lemma apply_update_accepted req d :
  Schema_validate PostsCtrl.update_schema req = None ->
  exists d',
    apply_update req d = inr d'
    /\ _id d' = _id d
    /\ publishedData d' = publishedData d
    /\ (obj_get "title" req = None -> title d' = title d)
    /\ (obj_get "body" req = None -> body d' = body d)
    /\ (obj_get "tags" req = None -> tags d' = tags d)
    /\ (forall s, obj_get "title" req = Some (JStr s) -> title d' = s)
    /\ (forall s, obj_get "body" req = Some (JStr s) -> body d' = s)
    /\ (forall g, obj_get "tags" req = Some (JArr g) -> map JStr (tags d') = g).
Proof.
  intros H. apply update_schema_accepts in H.
  destruct H as (Ht & Hb & Hg & Hid & Hdate).
  unfold apply_update. rewrite Hid, Hdate. cbn [negb].
  assert (Et : exists t, match obj_get "title" req with
                         | None => Some (title d)
                         | Some (JStr s) => Some s
                         | Some _ => None
                         end = Some t
                         /\ (obj_get "title" req = None -> t = title d)
                         /\ (forall s, obj_get "title" req = Some (JStr s) -> t = s)).
  { destruct Ht as [E|[s E]]; rewrite E; eexists; split; try reflexivity;
      split; intros; congruence. }
  assert (Eb : exists b, match obj_get "body" req with
                         | None => Some (body d)
                         | Some (JStr s) => Some s
                         | Some _ => None
                         end = Some b
                         /\ (obj_get "body" req = None -> b = body d)
                         /\ (forall s, obj_get "body" req = Some (JStr s) -> b = s)).
  { destruct Hb as [E|[s E]]; rewrite E; eexists; split; try reflexivity;
      split; intros; congruence. }
  assert (Eg : exists l, match obj_get "tags" req with
                         | None => Some (tags d)
                         | Some (JArr items) => strings_of items
                         | Some _ => None
                         end = Some l
                         /\ (obj_get "tags" req = None -> l = tags d)
                         /\ (forall g, obj_get "tags" req = Some (JArr g) -> map JStr l = g)).
  { destruct Hg as [E|(g & E & Hstr)]; rewrite E.
    - eexists. split; [reflexivity|]. split; intros; congruence.
    - destruct (strings_of_strings g Hstr) as (l & El & Hmap).
      exists l. split; [exact El|]. split; [discriminate|].
      intros g' Eg'. injection Eg' as <-. exact Hmap. }
  destruct Et as (t & -> & Ht1 & Ht2), Eb as (b & -> & Hb1 & Hb2),
    Eg as (l & -> & Hg1 & Hg2).
  eexists. split; [reflexivity|].
  cbn [_id publishedData title body tags].
  repeat split; assumption.
Qed.

(** C5. An update request with a valid partial body, on a post that
    exists, is answered with status 200 and the post as it is stored after
    the update.  The stored id and timestamp are the ones from before, every
    field the body does not name keeps its stored value, and a field the body
    names takes the value given. *)
Theorem update_keeps_unnamed_fields (w : World) (id : string)
    (page : option string) (req : jsval) (o : ObjectId) (d : Doc) :
  Schema_validate PostsCtrl.update_schema req = None ->
  castObjectId id = Some o ->
  find (has_id o) (collection w) = Some d ->
  exists d' ctx' w',
    run mongo (PostsCtrl.update (createContext id page req)) w = (Done ctx', w')
    /\ status ctx' = 200
    /\ response_body ctx' = Some (BodyPost d')
    /\ find (has_id o) (collection w') = Some d'
    /\ map _id (collection w') = map _id (collection w)
    /\ _id d' = _id d
    /\ publishedData d' = publishedData d
    /\ (obj_get "title" req = None -> title d' = title d)
    /\ (obj_get "body" req = None -> body d' = body d)
    /\ (obj_get "tags" req = None -> tags d' = tags d)
    /\ (forall s, obj_get "title" req = Some (JStr s) -> title d' = s)
    /\ (forall s, obj_get "body" req = Some (JStr s) -> body d' = s)
    /\ (forall g, obj_get "tags" req = Some (JArr g) -> map JStr (tags d') = g).
Proof.
  intros Hvalid Hcast Hfind.
  destruct (apply_update_accepted req d Hvalid) as (d' & Happly & Hid & Hrest).
  destruct (find_has_id _ _ _ Hfind) as [Hd _].
  exists d'.
  unfold PostsCtrl.update. cbn [request_body params_id createContext].
  rewrite Hvalid. unfold try_await. cbn [run mongo].
  rewrite Hcast, Hfind, Happly.
  do 2 eexists. split; [reflexivity|].
  split; [reflexivity|]. split; [reflexivity|].
  cbn [collection with_collection].
  split; [apply (find_replace_first o d' _ d Hfind); congruence|].
  split; [apply map_id_replace_first; congruence|].
  split; [exact Hid|exact Hrest].
Qed.

Lemma update_keeps_unnamed_fields_witness :
  exists d' ctx' w',
    run mongo
      (PostsCtrl.update
         (createContext "5f60b4000000000007000000" None (JObj [("title", JStr "New")])))
      (mkWorld [mkDoc 29517982837677702465881899008%N "T" "B" ["x"] 5] 0 0 0)
    = (Done ctx', w')
    /\ status ctx' = 200
    /\ response_body ctx' = Some (BodyPost d')
    /\ title d' = "New" /\ body d' = "B" /\ tags d' = ["x"]
    /\ _id d' = 29517982837677702465881899008%N /\ publishedData d' = 5.
Proof.
  destruct (update_keeps_unnamed_fields
              (mkWorld [mkDoc 29517982837677702465881899008%N "T" "B" ["x"] 5] 0 0 0)
              "5f60b4000000000007000000" None (JObj [("title", JStr "New")])
              29517982837677702465881899008%N
              (mkDoc 29517982837677702465881899008%N "T" "B" ["x"] 5)
              eq_refl eq_refl eq_refl)
    as (d' & ctx' & w' & Hrun & Hs & Hb & _ & _ & Hid & Hdate & Ht & Hbd & Hg & Ht' & _).
  exists d', ctx', w'.
  repeat split; try assumption.
  - apply Ht'. reflexivity.
  - apply Hbd. reflexivity.
  - apply Hg. reflexivity.
Defined.

(* ================================================================== *)
(** ** List *)

Lemma shorten_post_toJSON d : shorten_post (toJSON d) = inr (listed_post d).
Proof. reflexivity. Qed.

Lemma map_shorten_posts posts :
  map_throwing shorten_post (map toJSON posts) = inr (map listed_post posts).
Proof.
  induction posts as [|d rest IH]; cbn [map map_throwing].
  - reflexivity.
  - rewrite shorten_post_toJSON, IH. reflexivity.
Qed.

Lemma substring_all s : String.substring 0 (String.length s) s = s.
Proof.
  induction s as [|c rest IH]; cbn [String.substring String.length].
  - reflexivity.
  - rewrite IH. reflexivity.
Qed.

(** The three cases of the shortening. *)
Lemma shorten_body_below_200 b :
  (String.length b < 200)%nat -> shorten_body b = b.
Proof.
  intros H. unfold shorten_body. apply Nat.ltb_lt in H. rewrite H. reflexivity.
Qed.

Lemma shorten_body_from_200 b :
  (200 <= String.length b)%nat ->
  shorten_body b = String.append (String.substring 0 200 b) "...".
Proof.
  intros H. unfold shorten_body. apply Nat.ltb_ge in H. rewrite H. reflexivity.
Qed.

Lemma shorten_body_at_200 b :
  String.length b = 200%nat -> shorten_body b = String.append b "...".
Proof.
  intros H. rewrite shorten_body_from_200 by lia.
  rewrite <- H at 1. rewrite substring_all. reflexivity.
Qed.

Lemma desc_leb_transitive :
  RelationClasses.Transitive (fun a b : Doc => is_true (desc_leb a b)).
Proof.
  intros a b c. unfold is_true, desc_leb. rewrite !N.leb_le. lia.
Qed.

Lemma sort_newer_first docs : StronglySorted newer_first (SortDescending.sort docs).
Proof.
  pose proof (SortDescending.StronglySorted_sort docs desc_leb_transitive) as H.
  induction H as [|a l Hl IH Ha]; constructor.
  - exact IH.
  - eapply Forall_impl; [|exact Ha].
    intros b Hb. unfold newer_first. apply N.leb_le. exact Hb.
Qed.

Lemma StronglySorted_skipn {A : Type} (R : A -> A -> Prop) n : forall l,
  StronglySorted R l -> StronglySorted R (skipn n l).
Proof.
  induction n as [|n IH]; intros l H; cbn [skipn].
  - exact H.
  - destruct l as [|a rest]; [constructor|].
    apply IH. apply StronglySorted_inv in H. exact (proj1 H).
Qed.

Lemma Forall_firstn {A : Type} (P : A -> Prop) n : forall l,
  Forall P l -> Forall P (firstn n l).
Proof.
  induction n as [|n IH]; intros l H; cbn [firstn].
  - constructor.
  - destruct H as [|a rest Ha Hrest]; constructor; [exact Ha|exact (IH _ Hrest)].
Qed.

Lemma StronglySorted_firstn {A : Type} (R : A -> A -> Prop) n : forall l,
  StronglySorted R l -> StronglySorted R (firstn n l).
Proof.
  induction n as [|n IH]; intros l H; cbn [firstn].
  - constructor.
  - destruct H as [|a rest Hrest Ha]; constructor.
    + exact (IH _ Hrest).
    + apply Forall_firstn. exact Ha.
Qed.

(** [Math.ceil(count / 10)] is the least number of pages of ten that hold
    [count] posts. *)
Lemma Math_ceil_div_10 count :
  10 * (Math_ceil_div count 10 - 1) < count <= 10 * Math_ceil_div count 10.
Proof.
  assert (E : Math_ceil_div count 10 = - (- count / 10)).
  { unfold Math_ceil_div, Qceiling, Qfloor. cbn. rewrite Z.mul_1_r. reflexivity. }
  rewrite E. Z.div_mod_to_equations. lia.
Qed.

(** C2, where the code departs from it.  A stored body of exactly 200
    characters is not longer than 200 characters, yet the list shows it with
    ["..."] appended (203 characters): the handler keeps a body as it is only
    when its length is below 200.  The store is left as it was. *)
Theorem list_marks_body_of_200 :
  let stored := mkDoc 1%N "T" (replicate 200 "a") [] 0 in
  let w := mkWorld [stored] 0 0 0 in
  String.length (body stored) = 200%nat
  /\ exists ctx',
       run mongo (PostsCtrl.list (createContext "" None JNull)) w = (Done ctx', w)
       /\ response_body ctx'
          = Some (BodyPosts
                    [toJSON (mkDoc 1%N "T" (String.append (replicate 200 "a") "...") [] 0)])
       /\ String.append (replicate 200 "a") "..." <> body stored.
Proof.
  cbv zeta. split; [reflexivity|].
  eexists. split; [vm_compute; reflexivity|].
  split; [vm_compute; reflexivity|].
  intros H. apply (f_equal String.length) in H. vm_compute in H. discriminate H.
Qed.

(* ================================================================== *)
(** ** The store keeps its invariant *)

(** Whatever the handlers ask of the store, ids stay unique. *)
Lemma mongo_keeps_unique_ids (X : Type) (e : PostE X) (w : World) :
  unique_ids w -> unique_ids (snd (mongo X e w)).
Proof.
  unfold unique_ids. intros H.
  destruct e; cbn [mongo snd collection]; try exact H.
  - destruct (existsb (has_id (_id post)) (collection w)) eqn:E; cbn [snd].
    + exact H.
    + cbn [collection with_collection]. rewrite map_app. cbn [map].
      apply NoDup_app; [exact H | constructor; [intros []|constructor] |].
      intros a Ha [<-|[]]. exact (not_in_ids _ _ E Ha).
  - destruct (castObjectId id); exact H.
  - destruct (castObjectId id) as [o|]; cbn [snd]; [|exact H].
    apply map_id_remove_first. exact H.
  - destruct (castObjectId id) as [o|]; [|exact H].
    destruct (find (has_id o) (collection w)) as [d|] eqn:Hfind; [|exact H].
    destruct (apply_update update d) as [err|d'] eqn:Happly; [exact H|].
    cbn [snd collection with_collection].
    rewrite map_id_replace_first; [exact H|].
    destruct (find_has_id _ _ _ Hfind) as [Hd _].
    unfold apply_update in Happly.
    destruct (negb _); [discriminate|].
    repeat match type of Happly with
           | context [match ?x with _ => _ end] => destruct x
           end; try discriminate Happly.
    all: injection Happly as <-; exact Hd.
Qed.

(* ================================================================== *)
(** ** The id-addressed handlers against the store *)

Lemma cast_malformed id : ObjectId_isValid id = false -> castObjectId id = None.
Proof.
  intros H. destruct (castObjectId id) as [o|] eqn:E; [|reflexivity].
  assert (Hv : ObjectId_isValid id = true) by (apply isValid_iff_cast; exists o; exact E).
  rewrite Hv in H. discriminate H.
Qed.

Lemma run_read ctx w o :
  castObjectId (params_id ctx) = Some o ->
  run mongo (PostsCtrl.read ctx) w
  = (match find (has_id o) (collection w) with
     | Some post => Done (set_body (BodyPost post) ctx)
     | None => Done (set_status 404 ctx)
     end, w).
Proof.
  intros H. unfold PostsCtrl.read, try_await. cbn [run mongo]. rewrite H.
  destruct (find (has_id o) (collection w)); reflexivity.
Qed.

Lemma run_remove ctx w o :
  castObjectId (params_id ctx) = Some o ->
  run mongo (PostsCtrl.remove ctx) w
  = (Done (set_status 204 ctx), with_collection (remove_first o (collection w)) w).
Proof.
  intros H. unfold PostsCtrl.remove, try_await. cbn [run mongo]. rewrite H. reflexivity.
Qed.

Lemma remove_first_absent o docs :
  find (has_id o) docs = None -> remove_first o docs = docs.
Proof.
  induction docs as [|d rest IH]; cbn [find remove_first]; intros H.
  - reflexivity.
  - destruct (has_id o d); [discriminate|]. rewrite (IH H). reflexivity.
Qed.

Lemma has_id_other o o' d : o' <> o -> has_id o d = true -> has_id o' d = false.
Proof.
  intros Hne H. apply has_id_eq in H. unfold has_id. apply N.eqb_neq. congruence.
Qed.

Lemma find_remove_first_other o o' docs :
  o' <> o -> find (has_id o') (remove_first o docs) = find (has_id o') docs.
Proof.
  intros Hne. induction docs as [|d rest IH]; cbn [find remove_first].
  - reflexivity.
  - destruct (has_id o d) eqn:E.
    + rewrite (has_id_other o o' d Hne E). reflexivity.
    + cbn [find]. rewrite IH. reflexivity.
Qed.

Lemma length_remove_first o docs d :
  find (has_id o) docs = Some d ->
  S (List.length (remove_first o docs)) = List.length docs.
Proof.
  induction docs as [|x rest IH]; cbn [find remove_first List.length]; intros H.
  - discriminate.
  - destruct (has_id o x); [reflexivity|]. cbn [List.length]. rewrite (IH H). reflexivity.
Qed.

Lemma find_replace_first_other o o' d' docs :
  o' <> o -> _id d' = o ->
  find (has_id o') (replace_first o d' docs) = find (has_id o') docs.
Proof.
  intros Hne Hid. induction docs as [|d rest IH]; cbn [find replace_first].
  - reflexivity.
  - destruct (has_id o d) eqn:E; cbn [find].
    + rewrite (has_id_other o o' d Hne E).
      assert (E' : has_id o d' = true) by (apply has_id_eq; exact Hid).
      rewrite (has_id_other o o' d' Hne E'). reflexivity.
    + rewrite IH. reflexivity.
Qed.

Lemma length_replace_first o d' docs :
  List.length (replace_first o d' docs) = List.length docs.
Proof.
  induction docs as [|d rest IH]; cbn [replace_first List.length].
  - reflexivity.
  - destruct (has_id o d); cbn [List.length]; [reflexivity|]. rewrite IH. reflexivity.
Qed.

Lemma replace_first_same o docs d :
  find (has_id o) docs = Some d -> replace_first o d docs = docs.
Proof.
  induction docs as [|x rest IH]; cbn [find replace_first]; intros H.
  - discriminate.
  - destruct (has_id o x).
    + injection H as ->. reflexivity.
    + rewrite (IH H). reflexivity.
Qed.

(** X1. Reading an id that is well formed: when a post is stored under it
    the answer is 200 with that post, whole; when none is, the answer is 404
    with no body.  Either way the store is left as it was. *)
Theorem read_valid_id (w : World) (id : string) (page : option string) (req : jsval) :
  ObjectId_isValid id = true ->
  exists o ctx',
    castObjectId id = Some o
    /\ run mongo (PostsCtrl.read (createContext id page req)) w = (Done ctx', w)
    /\ (forall d, find (has_id o) (collection w) = Some d ->
          status ctx' = 200 /\ response_body ctx' = Some (BodyPost d))
    /\ (find (has_id o) (collection w) = None ->
          status ctx' = 404 /\ response_body ctx' = None).
Proof.
  intros Hvalid. apply isValid_iff_cast in Hvalid. destruct Hvalid as [o Ho].
  exists o.
  rewrite (run_read (createContext id page req) w o Ho).
  destruct (find (has_id o) (collection w)) as [d|].
  - eexists. split; [exact Ho|]. split; [reflexivity|].
    split; [|discriminate].
    intros d' E. injection E as <-. split; reflexivity.
  - eexists. split; [exact Ho|]. split; [reflexivity|].
    split; [discriminate|]. intros _. split; reflexivity.
Qed.

Lemma read_valid_id_witness :
  exists o ctx',
    castObjectId "5f60b4000000000007000000" = Some o
    /\ run mongo (PostsCtrl.read (createContext "5f60b4000000000007000000" None JNull))
         (mkWorld [mkDoc 29517982837677702465881899008%N "T" "B" [] 0] 0 0 0)
       = (Done ctx', mkWorld [mkDoc 29517982837677702465881899008%N "T" "B" [] 0] 0 0 0).
Proof.
  destruct (read_valid_id
              (mkWorld [mkDoc 29517982837677702465881899008%N "T" "B" [] 0] 0 0 0)
              "5f60b4000000000007000000" None JNull eq_refl)
    as (o & ctx' & Ho & Hrun & _).
  exists o, ctx'. split; assumption.
Defined.

(** X2. Without the guard in front, an id that is not well formed makes
    the query of [read], of [remove] and of [update] (with an accepted body)
    reject, and each handler answers 500; the store is left as it was. *)
Theorem malformed_id_unguarded_is_500 (w : World) (id : string)
    (page : option string) (req : jsval) :
  ObjectId_isValid id = false ->
  run mongo (PostsCtrl.read (createContext id page req)) w
  = (Thrown 500 (CastError "_id"), w)
  /\ run mongo (PostsCtrl.remove (createContext id page req)) w
     = (Thrown 500 (CastError "_id"), w)
  /\ (Schema_validate PostsCtrl.update_schema req = None ->
      run mongo (PostsCtrl.update (createContext id page req)) w
      = (Thrown 500 (CastError "_id"), w)).
Proof.
  intros H. apply cast_malformed in H.
  unfold PostsCtrl.read, PostsCtrl.remove, PostsCtrl.update, try_await.
  cbn [params_id request_body createContext run mongo].
  rewrite H. split; [reflexivity|]. split; [reflexivity|].
  intros Hv. rewrite Hv. cbn [run mongo]. rewrite H. reflexivity.
Qed.

Lemma malformed_id_unguarded_is_500_witness :
  run mongo (PostsCtrl.read (createContext "abc" None JNull)) (mkWorld [] 0 0 0)
  = (Thrown 500 (CastError "_id"), mkWorld [] 0 0 0).
Proof.
  exact (proj1 (malformed_id_unguarded_is_500 (mkWorld [] 0 0 0) "abc" None JNull eq_refl)).
Defined.

(** X3. With the guard in front, [read], [remove] and [update] never
    answer 500 against the store, whatever the request: [read] answers 200,
    400 or 404, [remove] 204 or 400, [update] 200, 400 or 404. *)
Theorem guarded_handlers_never_500 (w : World) (id : string)
    (page : option string) (req : jsval) :
  In (response_status
        (fst (run mongo
                (PostsCtrl.checkObjectId (createContext id page req) PostsCtrl.read) w)))
     [200; 400; 404]
  /\ In (response_status
           (fst (run mongo
                   (PostsCtrl.checkObjectId (createContext id page req) PostsCtrl.remove) w)))
        [204; 400]
  /\ In (response_status
           (fst (run mongo
                   (PostsCtrl.checkObjectId (createContext id page req) PostsCtrl.update) w)))
        [200; 400; 404].
Proof.
  unfold PostsCtrl.checkObjectId. cbn [params_id createContext].
  destruct (ObjectId_isValid id) eqn:Hvalid; cbn [negb].
  - apply isValid_iff_cast in Hvalid. destruct Hvalid as [o Ho].
    split; [|split].
    + rewrite (run_read (createContext id page req) w o Ho).
      destruct (find (has_id o) (collection w)); cbn; auto.
    + rewrite (run_remove (createContext id page req) w o Ho). cbn. auto.
    + unfold PostsCtrl.update. cbn [request_body params_id createContext].
      destruct (Schema_validate PostsCtrl.update_schema req) as [error|] eqn:Hv.
      * cbn. auto.
      * unfold try_await. cbn [run mongo]. rewrite Ho.
        destruct (find (has_id o) (collection w)) as [d|]; [|cbn; auto].
        destruct (apply_update_accepted req d Hv) as (d' & -> & _).
        cbn. auto.
  - cbn. auto.
Qed.

(** X4. An update with an accepted body on a well-formed id under which
    no post is stored is answered 404 with no body, and the store is left as
    it was. *)
Theorem update_absent_id (w : World) (id : string) (page : option string)
    (req : jsval) (o : ObjectId) :
  Schema_validate PostsCtrl.update_schema req = None ->
  castObjectId id = Some o ->
  find (has_id o) (collection w) = None ->
  exists ctx',
    run mongo (PostsCtrl.update (createContext id page req)) w = (Done ctx', w)
    /\ status ctx' = 404
    /\ response_body ctx' = None.
Proof.
  intros Hv Ho Hfind.
  unfold PostsCtrl.update, try_await. cbn [request_body params_id createContext].
  rewrite Hv. cbn [run mongo]. rewrite Ho, Hfind.
  eexists. split; [reflexivity|]. split; reflexivity.
Qed.

Lemma update_absent_id_witness :
  exists ctx',
    run mongo
      (PostsCtrl.update
         (createContext "5f60b4000000000007000000" None (JObj [("title", JStr "New")])))
      (mkWorld [] 0 0 0)
    = (Done ctx', mkWorld [] 0 0 0)
    /\ status ctx' = 404
    /\ response_body ctx' = None.
Proof.
  exact (update_absent_id (mkWorld [] 0 0 0) "5f60b4000000000007000000" None
           (JObj [("title", JStr "New")]) 29517982837677702465881899008%N
           eq_refl eq_refl eq_refl).
Defined.

(** X5. An update touches one post only: the collection keeps its size,
    and every other id is found with the post it had before. *)
Theorem update_leaves_other_posts (w : World) (id : string) (page : option string)
    (req : jsval) (o : ObjectId) (d : Doc) :
  Schema_validate PostsCtrl.update_schema req = None ->
  castObjectId id = Some o ->
  find (has_id o) (collection w) = Some d ->
  exists ctx' w',
    run mongo (PostsCtrl.update (createContext id page req)) w = (Done ctx', w')
    /\ List.length (collection w') = List.length (collection w)
    /\ forall o', o' <> o ->
         find (has_id o') (collection w') = find (has_id o') (collection w).
Proof.
  intros Hv Ho Hfind.
  destruct (apply_update_accepted req d Hv) as (d' & Happly & Hid & _).
  destruct (find_has_id _ _ _ Hfind) as [Hd _].
  unfold PostsCtrl.update, try_await. cbn [request_body params_id createContext].
  rewrite Hv. cbn [run mongo]. rewrite Ho, Hfind, Happly.
  do 2 eexists. split; [reflexivity|].
  cbn [collection with_collection].
  split; [apply length_replace_first|].
  intros o' Hne. apply find_replace_first_other; congruence.
Qed.

Lemma update_leaves_other_posts_witness :
  exists ctx' w',
    run mongo
      (PostsCtrl.update
         (createContext "5f60b4000000000007000000" None (JObj [("title", JStr "New")])))
      (mkWorld [mkDoc 1%N "T1" "B1" [] 0;
                mkDoc 29517982837677702465881899008%N "T" "B" ["x"] 5] 0 0 0)
    = (Done ctx', w')
    /\ find (has_id 1%N) (collection w') = Some (mkDoc 1%N "T1" "B1" [] 0).
Proof.
  destruct (update_leaves_other_posts
              (mkWorld [mkDoc 1%N "T1" "B1" [] 0;
                        mkDoc 29517982837677702465881899008%N "T" "B" ["x"] 5] 0 0 0)
              "5f60b4000000000007000000" None (JObj [("title", JStr "New")])
              29517982837677702465881899008%N
              (mkDoc 29517982837677702465881899008%N "T" "B" ["x"] 5)
              eq_refl eq_refl eq_refl)
    as (ctx' & w' & Hrun & _ & Hother).
  exists ctx', w'. split; [exact Hrun|].
  rewrite Hother; [reflexivity|discriminate].
Defined.

(** X6. An update whose body is the empty object changes nothing: the
    answer is 200 with the post as stored, and the store is left as it
    was. *)
Theorem update_with_empty_body (w : World) (id : string) (page : option string)
    (o : ObjectId) (d : Doc) :
  castObjectId id = Some o ->
  find (has_id o) (collection w) = Some d ->
  exists ctx',
    run mongo (PostsCtrl.update (createContext id page (JObj []))) w = (Done ctx', w)
    /\ status ctx' = 200
    /\ response_body ctx' = Some (BodyPost d).
Proof.
  intros Ho Hfind.
  unfold PostsCtrl.update, try_await. cbn [request_body params_id createContext].
  change (Schema_validate PostsCtrl.update_schema (JObj [])) with (@None ValidationError).
  cbn [run mongo]. rewrite Ho, Hfind.
  assert (Happly : apply_update (JObj []) d = inr d) by (destruct d; reflexivity).
  rewrite Happly.
  cbn [collection]. rewrite (replace_first_same o (collection w) d Hfind).
  exists (set_body (BodyPost d) (createContext id page (JObj []))).
  split; [destruct w; reflexivity|]. split; reflexivity.
Qed.

Lemma update_with_empty_body_witness :
  exists ctx',
    run mongo
      (PostsCtrl.update (createContext "5f60b4000000000007000000" None (JObj [])))
      (mkWorld [mkDoc 29517982837677702465881899008%N "T" "B" ["x"] 5] 0 0 0)
    = (Done ctx', mkWorld [mkDoc 29517982837677702465881899008%N "T" "B" ["x"] 5] 0 0 0)
    /\ status ctx' = 200.
Proof.
  destruct (update_with_empty_body
              (mkWorld [mkDoc 29517982837677702465881899008%N "T" "B" ["x"] 5] 0 0 0)
              "5f60b4000000000007000000" None
              29517982837677702465881899008%N
              (mkDoc 29517982837677702465881899008%N "T" "B" ["x"] 5)
              eq_refl eq_refl)
    as (ctx' & Hrun & Hs & _).
  exists ctx'. split; assumption.
Defined.

(** X7. Removing is idempotent: once an id has been removed, removing it
    again is answered 204 with no body and leaves the store as the first
    removal left it. *)
Theorem remove_twice (w : World) (id : string) (page : option string) (req : jsval) :
  ObjectId_isValid id = true ->
  unique_ids w ->
  exists ctx1 w1 ctx2,
    run mongo (PostsCtrl.remove (createContext id page req)) w = (Done ctx1, w1)
    /\ run mongo (PostsCtrl.remove (createContext id page req)) w1 = (Done ctx2, w1)
    /\ status ctx2 = 204
    /\ response_body ctx2 = None.
Proof.
  intros Hvalid Huniq. apply isValid_iff_cast in Hvalid. destruct Hvalid as [o Ho].
  rewrite (run_remove (createContext id page req) w o Ho).
  do 3 eexists. split; [reflexivity|].
  rewrite (run_remove (createContext id page req) _ o Ho).
  cbn [collection with_collection].
  rewrite (remove_first_absent o _ (find_remove_first o (collection w) Huniq)).
  split; [reflexivity|]. split; reflexivity.
Qed.

Lemma remove_twice_witness :
  exists ctx1 w1 ctx2,
    run mongo (PostsCtrl.remove (createContext "5f60b4000000000007000000" None JNull))
      (mkWorld [mkDoc 29517982837677702465881899008%N "T" "B" [] 0] 0 0 0)
    = (Done ctx1, w1)
    /\ run mongo (PostsCtrl.remove (createContext "5f60b4000000000007000000" None JNull)) w1
       = (Done ctx2, w1)
    /\ status ctx2 = 204.
Proof.
  destruct (remove_twice
              (mkWorld [mkDoc 29517982837677702465881899008%N "T" "B" [] 0] 0 0 0)
              "5f60b4000000000007000000" None JNull eq_refl)
    as (ctx1 & w1 & ctx2 & H1 & H2 & Hs & _).
  - unfold unique_ids. cbn [collection map _id].
    constructor; [intros []|constructor].
  - exists ctx1, w1, ctx2. repeat split; assumption.
Defined.

(** X8. A removal takes away the addressed post and nothing else: every
    other id is found with the post it had, the collection loses exactly one
    post when the id was stored, and is unchanged when it was not. *)
Theorem remove_leaves_other_posts (w : World) (id : string) (page : option string)
    (req : jsval) (o : ObjectId) :
  castObjectId id = Some o ->
  exists ctx' w',
    run mongo (PostsCtrl.remove (createContext id page req)) w = (Done ctx', w')
    /\ (forall o', o' <> o ->
          find (has_id o') (collection w') = find (has_id o') (collection w))
    /\ (forall d, find (has_id o) (collection w) = Some d ->
          S (List.length (collection w')) = List.length (collection w))
    /\ (find (has_id o) (collection w) = None -> collection w' = collection w).
Proof.
  intros Ho. rewrite (run_remove (createContext id page req) w o Ho).
  do 2 eexists. split; [reflexivity|]. cbn [collection with_collection].
  split; [intros o' Hne; apply find_remove_first_other; exact Hne|].
  split; [intros d Hd; exact (length_remove_first o _ d Hd)|].
  apply remove_first_absent.
Qed.

Lemma remove_leaves_other_posts_witness :
  exists ctx' w',
    run mongo (PostsCtrl.remove (createContext "5f60b4000000000007000000" None JNull))
      (mkWorld [mkDoc 1%N "T1" "B1" [] 0;
                mkDoc 29517982837677702465881899008%N "T" "B" [] 0] 0 0 0)
    = (Done ctx', w')
    /\ find (has_id 1%N) (collection w') = Some (mkDoc 1%N "T1" "B1" [] 0).
Proof.
  destruct (remove_leaves_other_posts
              (mkWorld [mkDoc 1%N "T1" "B1" [] 0;
                        mkDoc 29517982837677702465881899008%N "T" "B" [] 0] 0 0 0)
              "5f60b4000000000007000000" None JNull
              29517982837677702465881899008%N eq_refl)
    as (ctx' & w' & Hrun & Hother & _).
  exists ctx', w'. split; [exact Hrun|].
  rewrite Hother; [reflexivity|discriminate].
Defined.

(* ================================================================== *)
(** ** Rejected queries *)

(** X9. Whatever the store, a query it rejects is answered 500 with the
    rejection: the one query of [read] and of [remove], the update of
    [update] and the save of [write] once the body is accepted, and the find
    or the count of [list] once the page number is not below 1. *)
Theorem rejected_query_is_500 (W : Type) (h : Store W) (w w1 : W) (e : JsError)
    (ctx : Ctx) (post : Doc) (posts : list Doc) :
  let skip :=
    js_mul (js_sub (parseInt (PostsCtrl.page_or_default (query_page ctx))) (Num 1))
           (Num 10) in
  (fst (h _ (FindById (params_id ctx)) w) = inl e ->
     fst (run h (PostsCtrl.read ctx) w) = Thrown 500 e)
  /\ (fst (h _ (FindByIdAndRemove (params_id ctx)) w) = inl e ->
        fst (run h (PostsCtrl.remove ctx) w) = Thrown 500 e)
  /\ (Schema_validate PostsCtrl.update_schema (request_body ctx) = None ->
      fst (h _ (FindByIdAndUpdate (params_id ctx) (request_body ctx) true) w) = inl e ->
        fst (run h (PostsCtrl.update ctx) w) = Thrown 500 e)
  /\ (Schema_validate PostsCtrl.write_schema (request_body ctx) = None ->
      h _ (NewPost (obj_get "title" (request_body ctx))
                   (obj_get "body" (request_body ctx))
                   (obj_get "tags" (request_body ctx))) w = (post, w1) ->
      fst (h _ (Save post) w1) = inl e ->
        fst (run h (PostsCtrl.write ctx) w) = Thrown 500 e)
  /\ (js_lt (parseInt (PostsCtrl.page_or_default (query_page ctx))) (Num 1) = false ->
      fst (h _ (Find (-1) 10 skip) w) = inl e ->
        fst (run h (PostsCtrl.list ctx) w) = Thrown 500 e)
  /\ (js_lt (parseInt (PostsCtrl.page_or_default (query_page ctx))) (Num 1) = false ->
      h _ (Find (-1) 10 skip) w = (inr posts, w1) ->
      fst (h _ CountDocuments w1) = inl e ->
        fst (run h (PostsCtrl.list ctx) w) = Thrown 500 e).
Proof.
  cbv zeta.
  unfold PostsCtrl.read, PostsCtrl.remove, PostsCtrl.update, PostsCtrl.write,
    PostsCtrl.list, try_await.
  repeat split.
  - intros H. cbn [run].
    destruct (h _ (FindById (params_id ctx)) w) as [ans w']. cbn [fst] in H. subst ans.
    reflexivity.
  - intros H. cbn [run].
    destruct (h _ (FindByIdAndRemove (params_id ctx)) w) as [ans w'].
    cbn [fst] in H. subst ans. reflexivity.
  - intros Hv H. rewrite Hv. cbn [run].
    destruct (h _ (FindByIdAndUpdate (params_id ctx) (request_body ctx) true) w)
      as [ans w'].
    cbn [fst] in H. subst ans. reflexivity.
  - intros Hv Hnew H. rewrite Hv. cbn [run]. rewrite Hnew. cbn [run].
    destruct (h _ (Save post) w1) as [ans w2]. cbn [fst] in H. subst ans. reflexivity.
  - intros Hlt H. rewrite Hlt. cbn [run].
    destruct (h _ (Find _ _ _) w) as [ans w']. cbn [fst] in H. subst ans. reflexivity.
  - intros Hlt Hfind H. rewrite Hlt. cbn [run]. rewrite Hfind. cbn [run].
    destruct (h _ CountDocuments w1) as [ans w2]. cbn [fst] in H. subst ans.
    reflexivity.
Qed.

Lemma rejected_query_is_500_witness :
  fst (run mongo (PostsCtrl.read (createContext "abc" None JNull)) (mkWorld [] 0 0 0))
  = Thrown 500 (CastError "_id")
  /\ fst (run mongo (PostsCtrl.remove (createContext "abc" None JNull)) (mkWorld [] 0 0 0))
     = Thrown 500 (CastError "_id")
  /\ fst (run mongo (PostsCtrl.update (createContext "abc" None (JObj [])))
            (mkWorld [] 0 0 0))
     = Thrown 500 (CastError "_id")
  /\ fst (run mongo
            (PostsCtrl.write
               (createContext "" None
                  (JObj [("title", JStr "T"); ("body", JStr "B"); ("tags", JArr [])])))
            (mkWorld [mkDoc 0%N "T0" "B0" [] 0] 0 0 0))
     = Thrown 500 (MongoError "E11000 duplicate key")
  /\ fst (run unreachable (PostsCtrl.list (createContext "" (Some "2") JNull))
            (mkWorld [] 0 0 0))
     = Thrown 500 (MongoError "connection refused").
Proof.
  split; [|split; [|split; [|split]]].
  - apply (proj1 (rejected_query_is_500 World mongo (mkWorld [] 0 0 0) (mkWorld [] 0 0 0)
                    (CastError "_id") (createContext "abc" None JNull)
                    (mkDoc 0%N "" "" [] 0) [])).
    reflexivity.
  - apply (proj1 (proj2 (rejected_query_is_500 World mongo (mkWorld [] 0 0 0)
                           (mkWorld [] 0 0 0)
                           (CastError "_id") (createContext "abc" None JNull)
                           (mkDoc 0%N "" "" [] 0) []))).
    reflexivity.
  - apply (proj1 (proj2 (proj2 (rejected_query_is_500 World mongo (mkWorld [] 0 0 0)
                                  (mkWorld [] 0 0 0)
                                  (CastError "_id") (createContext "abc" None (JObj []))
                                  (mkDoc 0%N "" "" [] 0) [])))); reflexivity.
  - apply (proj1 (proj2 (proj2 (proj2
             (rejected_query_is_500 World mongo
                (mkWorld [mkDoc 0%N "T0" "B0" [] 0] 0 0 0)
                (mkWorld [mkDoc 0%N "T0" "B0" [] 0] 0 0 1)
                (MongoError "E11000 duplicate key")
                (createContext "" None
                   (JObj [("title", JStr "T"); ("body", JStr "B"); ("tags", JArr [])]))
                (mkDoc 0%N "T" "B" [] 0) []))))); reflexivity.
  - apply (proj1 (proj2 (proj2 (proj2 (proj2
             (rejected_query_is_500 World unreachable (mkWorld [] 0 0 0)
                (mkWorld [] 0 0 0)
                (MongoError "connection refused")
                (createContext "" (Some "2") JNull)
                (mkDoc 0%N "" "" [] 0) [])))))); reflexivity.
Defined.

(* ================================================================== *)
(** ** The bodies the schemas accept *)

Lemma first_error_None {A : Type} (a b : option A) :
  match a with Some e => Some e | None => b end = None <-> a = None /\ b = None.
Proof.
  destruct a; split; try discriminate; tauto.
Qed.

Lemma validate_string_iff path v :
  validate_value Joi_string path (Some v) = None <-> nonempty_string v = true.
Proof.
  destruct v as [| | |s| | | |]; cbn [validate_value nonempty_string];
    try (split; discriminate).
  destruct s; split; try discriminate; reflexivity.
Qed.

Lemma validate_items_iff path items : forall i,
  validate_items (validate_value Joi_string) path items i = None
  <-> forallb nonempty_string items = true.
Proof.
  induction items as [|x rest IH]; intros i; cbn [validate_items forallb].
  - split; reflexivity.
  - rewrite first_error_None, validate_string_iff, IH, andb_true_iff. reflexivity.
Qed.

Lemma validate_strings_iff path v :
  validate_value (Joi_array_items Joi_string) path (Some v) = None
  <-> nonempty_strings v = true.
Proof.
  destruct v; cbn [validate_value nonempty_strings]; try (split; discriminate).
  apply validate_items_iff.
Qed.

Lemma validate_required_iff s fits path v :
  (forall x, validate_value s path (Some x) = None <-> fits x = true) ->
  validate_value (Joi_required s) path v = None <-> required_field fits v = true.
Proof.
  intros H. destruct v as [x|]; cbn [validate_value required_field].
  - apply H.
  - split; discriminate.
Qed.

Lemma validate_optional_string_iff path v :
  validate_value Joi_string path v = None <-> optional_field nonempty_string v = true.
Proof.
  destruct v as [x|]; cbn [optional_field].
  - apply validate_string_iff.
  - split; reflexivity.
Qed.

Lemma validate_optional_strings_iff path v :
  validate_value (Joi_array_items Joi_string) path v = None
  <-> optional_field nonempty_strings v = true.
Proof.
  destruct v as [x|]; cbn [optional_field].
  - apply validate_strings_iff.
  - split; reflexivity.
Qed.

Lemma no_unknown_iff keys fields :
  find (fun kv => negb (known_key keys kv)) fields = None
  <-> forallb (known_key keys) fields = true.
Proof.
  induction fields as [|kv rest IH]; cbn [find forallb].
  - split; reflexivity.
  - destruct (known_key keys kv); cbn [negb andb].
    + exact IH.
    + split; discriminate.
Qed.

Lemma validate_object_iff keys fields :
  Schema_validate (Joi_object_keys keys) (JObj fields) = None
  <-> validate_keys validate_value [] fields keys = None
      /\ forallb (known_key keys) fields = true.
Proof.
  unfold Schema_validate. cbn [validate_value].
  rewrite <- no_unknown_iff.
  destruct (validate_keys validate_value [] fields keys).
  - split; [discriminate|]. intros [H _]. discriminate H.
  - destruct (find (fun kv => negb (known_key keys kv)) fields) as [[k x]|].
    + split; [discriminate|]. intros [_ H]. discriminate H.
    + split; [intros _; split; reflexivity | reflexivity].
Qed.

Lemma write_schema_iff req :
  Schema_validate PostsCtrl.write_schema req = None <-> acceptable_create req = true.
Proof.
  destruct req; try (split; discriminate).
  unfold PostsCtrl.write_schema, acceptable_create.
  rewrite validate_object_iff. cbn [validate_keys app].
  rewrite !first_error_None.
  rewrite !(validate_required_iff Joi_string nonempty_string)
    by (intros; apply validate_string_iff).
  rewrite (validate_required_iff (Joi_array_items Joi_string) nonempty_strings)
    by (intros; apply validate_strings_iff).
  rewrite !andb_true_iff. unfold only_post_keys.
  change (forallb (known_key _) fields)
    with (forallb (fun kv => existsb (String.eqb (fst kv)) ["title"; "body"; "tags"]) fields).
  tauto.
Qed.

Lemma update_schema_iff req :
  Schema_validate PostsCtrl.update_schema req = None <-> acceptable_update req = true.
Proof.
  destruct req; try (split; discriminate).
  unfold PostsCtrl.update_schema, acceptable_update.
  rewrite validate_object_iff. cbn [validate_keys app].
  rewrite !first_error_None.
  rewrite !validate_optional_string_iff, validate_optional_strings_iff.
  rewrite !andb_true_iff. unfold only_post_keys.
  change (forallb (known_key _) fields)
    with (forallb (fun kv => existsb (String.eqb (fst kv)) ["title"; "body"; "tags"]) fields).
  tauto.
Qed.

(** What the two validating handlers do, by the shape of the body. *)
Lemma write_accepts_exactly_aux (ctx : Ctx) :
  (acceptable_create (request_body ctx) = true ->
     Schema_validate PostsCtrl.write_schema (request_body ctx) = None)
  /\ (acceptable_create (request_body ctx) = false ->
        exists ctx', PostsCtrl.write ctx = Ret ctx' /\ status ctx' = 400).
Proof.
  split; intros H.
  - apply write_schema_iff. exact H.
  - unfold PostsCtrl.write.
    destruct (Schema_validate PostsCtrl.write_schema (request_body ctx)) as [error|] eqn:E.
    + eexists. split; reflexivity.
    + apply write_schema_iff in E. rewrite E in H. discriminate H.
Qed.

Lemma update_accepts_exactly_aux (ctx : Ctx) :
  (acceptable_update (request_body ctx) = true ->
     Schema_validate PostsCtrl.update_schema (request_body ctx) = None)
  /\ (acceptable_update (request_body ctx) = false ->
        exists ctx', PostsCtrl.update ctx = Ret ctx' /\ status ctx' = 400).
Proof.
  split; intros H.
  - apply update_schema_iff. exact H.
  - unfold PostsCtrl.update.
    destruct (Schema_validate PostsCtrl.update_schema (request_body ctx)) as [error|] eqn:E.
    + eexists. split; reflexivity.
    + apply update_schema_iff in E. rewrite E in H. discriminate H.
Qed.



(** X11. The update handler goes to the store with exactly the bodies
    that are objects whose properties are among [title], [body] and [tags],
    each a non-empty text (an array of non-empty texts for [tags]) when it
    is there: for those its first step is the update query with the body as
    received; for every other body, one that names [_id] or [publishedData]
    for instance, it answers 400 with the validation error and makes no
    call. *)
Theorem update_accepts_exactly (ctx : Ctx) :
  (acceptable_update (request_body ctx) = true ->
     exists k,
       PostsCtrl.update ctx
       = Call (FindByIdAndUpdate (params_id ctx) (request_body ctx) true) k)
  /\ (acceptable_update (request_body ctx) = false ->
        exists error ctx',
          PostsCtrl.update ctx = Ret ctx'
          /\ status ctx' = 400
          /\ response_body ctx' = Some (BodyError error)).
Proof.
  unfold PostsCtrl.update. split; intros H.
  - apply update_schema_iff in H. rewrite H. eexists. reflexivity.
  - destruct (Schema_validate PostsCtrl.update_schema (request_body ctx)) as [error|] eqn:E.
    + exists error. eexists. split; [reflexivity|]. split; reflexivity.
    + apply update_schema_iff in E. rewrite E in H. discriminate H.
Qed.

Lemma update_accepts_exactly_witness :
  (exists k,
     PostsCtrl.update (createContext "abc" None (JObj [("tags", JArr [JStr "x"])]))
     = Call (FindByIdAndUpdate "abc" (JObj [("tags", JArr [JStr "x"])]) true) k)
  /\ (exists error ctx',
        PostsCtrl.update
          (createContext "abc" None (JObj [("publishedData", JNum 0)]))
        = Ret ctx'
        /\ status ctx' = 400
        /\ response_body ctx' = Some (BodyError error)).
Proof.
  split.
  - apply (proj1 (update_accepts_exactly
                    (createContext "abc" None (JObj [("tags", JArr [JStr "x"])])))).
    reflexivity.
  - apply (proj2 (update_accepts_exactly
                    (createContext "abc" None (JObj [("publishedData", JNum 0)])))).
    reflexivity.
Defined.

(* ================================================================== *)
(** ** Page numbers in decimal *)

Ltac eval_digit :=
  match goal with
  | |- context [digit_value ?c] =>
      let v := eval vm_compute in (digit_value c) in
      change (digit_value c) with v
  end.

Lemma parse_digits_stop rest acc :
  starts_with_digit rest = false -> parse_digits rest acc = acc.
Proof.
  destruct rest as [|c rest]; cbn [starts_with_digit parse_digits]; [reflexivity|].
  destruct (digit_value c); [discriminate|reflexivity].
Qed.

Lemma parse_digits_uint d : forall rest acc,
  parse_digits (String.append (DecimalString.NilEmpty.string_of_uint d) rest) (Some acc)
  = parse_digits rest (Some (uint_value d acc)).
Proof.
  induction d; intros rest acc;
    cbn [DecimalString.NilEmpty.string_of_uint String.append parse_digits uint_value];
    try reflexivity; eval_digit; cbv iota beta; apply IHd.
Qed.

Lemma parse_digits_uint_start d rest :
  d <> Decimal.Nil ->
  parse_digits (String.append (DecimalString.NilEmpty.string_of_uint d) rest) None
  = parse_digits rest (Some (uint_value d 0)).
Proof.
  intros Hd. destruct d; [contradiction|..];
    cbn [DecimalString.NilEmpty.string_of_uint String.append parse_digits uint_value];
    eval_digit; cbv iota beta; apply parse_digits_uint.
Qed.

Lemma of_uint_acc_value d : forall acc,
  Z.pos (Pos.of_uint_acc d acc) = uint_value d (Z.pos acc).
Proof.
  induction d; intros acc; cbn [Pos.of_uint_acc uint_value];
    try reflexivity; rewrite IHd; f_equal; lia.
Qed.

Lemma of_uint_value d : Z.of_N (Pos.of_uint d) = uint_value d 0.
Proof.
  induction d; cbn [Pos.of_uint uint_value]; try reflexivity;
    try (cbn [Z.of_N]; rewrite of_uint_acc_value; reflexivity).
  exact IHd.
Qed.

Lemma to_uint_value p : uint_value (Pos.to_uint p) 0 = Z.pos p.
Proof.
  rewrite <- of_uint_value, DecimalPos.Unsigned.of_to. reflexivity.
Qed.

(** A text that begins with a digit is neither trimmed nor signed. *)
Lemma parseInt_digit_first c rest k :
  digit_value c = Some k ->
  parseInt (String c rest)
  = match parse_digits (String c rest) None with
    | Some v => Num (1 * v)
    | None => NaN
    end.
Proof.
  intros H.
  destruct c as [[] [] [] [] [] [] [] []]; try discriminate H; reflexivity.
Qed.

Lemma string_of_uint_digit_first d :
  d <> Decimal.Nil ->
  exists c rest k,
    DecimalString.NilEmpty.string_of_uint d = String c rest /\ digit_value c = Some k.
Proof.
  intros Hd. destruct d; [contradiction|..];
    cbn [DecimalString.NilEmpty.string_of_uint]; do 3 eexists; split; reflexivity.
Qed.

Lemma parseInt_uint p rest :
  starts_with_digit rest = false ->
  parseInt (String.append (DecimalString.NilEmpty.string_of_uint (Pos.to_uint p)) rest)
  = Num (Z.pos p).
Proof.
  intros Hrest.
  pose proof (DecimalPos.Unsigned.to_uint_nonnil p) as Hnil.
  destruct (string_of_uint_digit_first _ Hnil) as (c & s' & k & Hs & Hc).
  pose proof (parse_digits_uint_start (Pos.to_uint p) rest Hnil) as Hparse.
  rewrite Hs in *. cbn [String.append] in *.
  rewrite (parseInt_digit_first c _ k Hc), Hparse.
  rewrite (parse_digits_stop rest _ Hrest), to_uint_value.
  f_equal.
Qed.

Lemma parseInt_decimal (n : Z) (rest : string) :
  starts_with_digit rest = false ->
  parseInt (String.append (String_of_Z n) rest) = Num n.
Proof.
  intros Hrest. unfold String_of_Z.
  destruct n as [|p|p]; cbn [Z.to_int DecimalString.NilZero.string_of_int].
  - cbn [DecimalString.NilZero.string_of_uint DecimalString.NilEmpty.string_of_uint
         String.append].
    rewrite (parseInt_digit_first "0" rest 0 eq_refl).
    cbn [parse_digits]. eval_digit. cbv iota beta.
    rewrite (parse_digits_stop rest _ Hrest). reflexivity.
  - pose proof (DecimalPos.Unsigned.to_uint_nonnil p) as Hnil.
    unfold DecimalString.NilZero.string_of_uint.
    destruct (Pos.to_uint p) eqn:E; [contradiction|..]; rewrite <- E;
      apply parseInt_uint; exact Hrest.
  - pose proof (DecimalPos.Unsigned.to_uint_nonnil p) as Hnil.
    unfold DecimalString.NilZero.string_of_uint.
    assert (Hsame : match Pos.to_uint p with
                    | Decimal.Nil => "0"
                    | _ => DecimalString.NilEmpty.string_of_uint (Pos.to_uint p)
                    end = DecimalString.NilEmpty.string_of_uint (Pos.to_uint p))
      by (destruct (Pos.to_uint p); [contradiction|..]; reflexivity).
    rewrite Hsame. cbn [String.append].
    unfold parseInt.
    change (trim_start (String "-" ?s)) with (String "-" s).
    cbv iota beta.
    rewrite (parse_digits_uint_start (Pos.to_uint p) rest Hnil).
    rewrite (parse_digits_stop rest _ Hrest), to_uint_value.
    reflexivity.
Qed.

(* ================================================================== *)
(** ** Pages of the list *)

(** What [list] does for a page number that is not below 1. *)
Lemma run_list ctx w p :
  parseInt (PostsCtrl.page_or_default (query_page ctx)) = Num p ->
  1 <= p ->
  run mongo (PostsCtrl.list ctx) w
  = (Done (set_body
             (BodyPosts
                (map listed_post
                   (firstn 10 (skipn (Z.to_nat ((p - 1) * 10))
                                 (SortDescending.sort (collection w))))))
             (set_header "Last-Page"
                (String_of_Z (Math_ceil_div (Z.of_nat (List.length (collection w))) 10))
                ctx)),
     w).
Proof.
  intros Hpage Hp. unfold PostsCtrl.list. rewrite Hpage. cbn [js_lt js_sub js_mul].
  assert (Hlt : (p <? 1) = false) by (apply Z.ltb_ge; lia). rewrite Hlt.
  assert (Hskip : ((p - 1) * 10 <? 0) = false) by (apply Z.ltb_ge; lia).
  unfold try_await. cbn [run mongo].
  unfold mongo_find. rewrite Hskip.
  change (sort_by_id (-1) (collection w)) with (Some (SortDescending.sort (collection w))).
  change (apply_limit 10) with (@firstn Doc 10).
  cbn [run mongo]. rewrite map_shorten_posts. reflexivity.
Qed.

Lemma length_sorted docs : List.length (SortDescending.sort docs) = List.length docs.
Proof.
  symmetry. apply Permutation_length. apply SortDescending.Permuted_sort.
Qed.

Lemma String_of_Z_not_empty n : String_of_Z n <> EmptyString.
Proof.
  unfold String_of_Z.
  destruct n as [|p|p]; cbn [Z.to_int DecimalString.NilZero.string_of_int];
    try discriminate.
  unfold DecimalString.NilZero.string_of_uint.
  pose proof (DecimalPos.Unsigned.to_uint_nonnil p) as Hnil.
  destruct (Pos.to_uint p); try contradiction;
    cbn [DecimalString.NilEmpty.string_of_uint]; discriminate.
Qed.

Lemma append_empty s : String.append s EmptyString = s.
Proof.
  induction s as [|c rest IH]; cbn [String.append]; [reflexivity|].
  rewrite IH. reflexivity.
Qed.

Lemma page_request_page p :
  parseInt (PostsCtrl.page_or_default (query_page (page_request p))) = Num p.
Proof.
  cbn [page_request createContext query_page].
  pose proof (String_of_Z_not_empty p) as Hne.
  assert (E : PostsCtrl.page_or_default (Some (String_of_Z p)) = String_of_Z p)
    by (cbn [PostsCtrl.page_or_default]; destruct (String_of_Z p);
        [contradiction|reflexivity]).
  rewrite E. rewrite <- (append_empty (String_of_Z p)).
  apply parseInt_decimal. reflexivity.
Qed.

(** A page asked for by its number in decimal, with or without text that
    does not begin with a digit after it, is parsed to that number. *)
Lemma decimal_page p rest :
  starts_with_digit rest = false ->
  parseInt (PostsCtrl.page_or_default (Some (String.append (String_of_Z p) rest)))
  = Num p.
Proof.
  intros Hrest.
  pose proof (String_of_Z_not_empty p) as Hne.
  assert (E : PostsCtrl.page_or_default (Some (String.append (String_of_Z p) rest))
              = String.append (String_of_Z p) rest).
  { cbn [PostsCtrl.page_or_default].
    destruct (String_of_Z p); [contradiction|reflexivity]. }
  rewrite E. apply parseInt_decimal. exact Hrest.
Qed.

(** C3. A list request for page [p], the page number written in decimal,
    with [p >= 1] and [(p - 1) * 10] a safe integer, is answered 200 with the
    posts of page [p]: the handler queries the store for the posts sorted by
    descending id, limit 10, skip [(p - 1) * 10], and for the count, and the
    store is left unchanged.  The page is the collection sorted by descending
    id, without its first [(p - 1) * 10] posts, cut after ten; it has at most
    ten posts and is in descending order of id.  The [Last-Page] header is
    the ceiling of the count divided by ten. *)
Theorem list_page (w : World) (id : string) (req : jsval) (p : Z) :
  1 <= p ->
  (p - 1) * 10 <= MAX_SAFE_INTEGER ->
  exists posts ctx' lastPage,
    run mongo (PostsCtrl.list (createContext id (Some (String_of_Z p)) req)) w
    = (Done ctx', w)
    /\ queries mongo (PostsCtrl.list (createContext id (Some (String_of_Z p)) req)) w
       = [Q _ (Find (-1) 10 (Num ((p - 1) * 10))); Q _ CountDocuments]
    /\ status ctx' = 200
    /\ response_body ctx' = Some (BodyPosts (map listed_post posts))
    /\ posts = firstn 10 (skipn (Z.to_nat ((p - 1) * 10))
                            (SortDescending.sort (collection w)))
    /\ Permutation (collection w) (SortDescending.sort (collection w))
    /\ StronglySorted newer_first (SortDescending.sort (collection w))
    /\ (List.length posts <= 10)%nat
    /\ StronglySorted newer_first posts
    /\ get_header "Last-Page" ctx' = Some (String_of_Z lastPage)
    /\ 10 * (lastPage - 1) < Z.of_nat (List.length (collection w)) <= 10 * lastPage.
Proof.
  intros Hp Hsafe.
  assert (Hpage : parseInt (PostsCtrl.page_or_default (Some (String_of_Z p))) = Num p).
  { rewrite <- (append_empty (String_of_Z p)). apply decimal_page. reflexivity. }
  exists (firstn 10 (skipn (Z.to_nat ((p - 1) * 10)) (SortDescending.sort (collection w)))).
  unfold PostsCtrl.list. cbn [query_page createContext].
  rewrite Hpage. cbn [js_lt js_sub js_mul].
  assert (Hlt : (p <? 1) = false) by (apply Z.ltb_ge; lia). rewrite Hlt.
  assert (Hskip : ((p - 1) * 10 <? 0) = false) by (apply Z.ltb_ge; lia).
  unfold try_await. cbn [run queries mongo].
  unfold mongo_find. rewrite Hskip.
  change (sort_by_id (-1) (collection w)) with (Some (SortDescending.sort (collection w))).
  change (apply_limit 10) with (@firstn Doc 10).
  cbn [run queries mongo].
  rewrite map_shorten_posts. cbn [run queries].
  do 2 eexists. split; [reflexivity|].
  split; [reflexivity|]. split; [reflexivity|]. split; [reflexivity|].
  split; [reflexivity|].
  split; [apply SortDescending.Permuted_sort|].
  split; [apply sort_newer_first|].
  split; [apply firstn_le_length|].
  split; [apply StronglySorted_firstn, StronglySorted_skipn, sort_newer_first|].
  split; [reflexivity|].
  apply Math_ceil_div_10.
Qed.

Lemma list_page_witness :
  exists ctx1 ctx2,
    run mongo (PostsCtrl.list (createContext "" (Some "1") JNull))
      (mkWorld (map (fun n => mkDoc n "T" "B" [] 0)
                  [3; 11; 1; 7; 12; 5; 9; 2; 10; 4; 8; 6]%N) 0 0 0)
    = (Done ctx1,
       mkWorld (map (fun n => mkDoc n "T" "B" [] 0)
                  [3; 11; 1; 7; 12; 5; 9; 2; 10; 4; 8; 6]%N) 0 0 0)
    /\ response_body ctx1
       = Some (BodyPosts (map (fun n => toJSON (mkDoc n "T" "B" [] 0))
                            [12; 11; 10; 9; 8; 7; 6; 5; 4; 3]%N))
    /\ run mongo (PostsCtrl.list (createContext "" (Some "2") JNull))
         (mkWorld (map (fun n => mkDoc n "T" "B" [] 0)
                     [3; 11; 1; 7; 12; 5; 9; 2; 10; 4; 8; 6]%N) 0 0 0)
       = (Done ctx2,
          mkWorld (map (fun n => mkDoc n "T" "B" [] 0)
                     [3; 11; 1; 7; 12; 5; 9; 2; 10; 4; 8; 6]%N) 0 0 0)
    /\ status ctx2 = 200
    /\ response_body ctx2
       = Some (BodyPosts (map (fun n => toJSON (mkDoc n "T" "B" [] 0)) [2; 1]%N))
    /\ get_header "Last-Page" ctx2 = Some "2".
Proof.
  destruct (list_page
              (mkWorld (map (fun n => mkDoc n "T" "B" [] 0)
                          [3; 11; 1; 7; 12; 5; 9; 2; 10; 4; 8; 6]%N) 0 0 0)
              "" JNull 1)
    as (posts1 & ctx1 & lastPage1 & Hrun1 & _ & _ & Hb1 & Hposts1 & _);
    [lia | unfold MAX_SAFE_INTEGER; lia |].
  destruct (list_page
              (mkWorld (map (fun n => mkDoc n "T" "B" [] 0)
                          [3; 11; 1; 7; 12; 5; 9; 2; 10; 4; 8; 6]%N) 0 0 0)
              "" JNull 2)
    as (posts2 & ctx2 & lastPage2 & Hrun2 & _ & Hs2 & Hb2 & Hposts2 & _ & _ & _ & _
        & Hh2 & Hlast2);
    [lia | unfold MAX_SAFE_INTEGER; lia |].
  exists ctx1, ctx2.
  split; [exact Hrun1|].
  split; [rewrite Hb1, Hposts1; reflexivity|].
  split; [exact Hrun2|]. split; [exact Hs2|].
  split; [rewrite Hb2, Hposts2; reflexivity|].
  rewrite Hh2. cbn [collection map List.length] in Hlast2.
  assert (lastPage2 = 2) as -> by lia. reflexivity.
Defined.

(** X12. Text after the page number is ignored: a request for page [p]
    with any text that does not begin with a digit after the number, as in
    [?page=3abc], is answered as the request for page [p] is, with the same
    status, posts and [Last-Page] header. *)
Theorem list_ignores_text_after_page_number (w : World) (id : string) (req : jsval)
    (p : Z) (rest : string) :
  1 <= p ->
  (p - 1) * 10 <= MAX_SAFE_INTEGER ->
  starts_with_digit rest = false ->
  exists ctx1 ctx2,
    run mongo
      (PostsCtrl.list (createContext id (Some (String.append (String_of_Z p) rest)) req)) w
    = (Done ctx1, w)
    /\ run mongo (PostsCtrl.list (createContext id (Some (String_of_Z p)) req)) w
       = (Done ctx2, w)
    /\ status ctx1 = 200
    /\ status ctx1 = status ctx2
    /\ response_body ctx1 = response_body ctx2
    /\ headers ctx1 = headers ctx2
    /\ response_body ctx1
       = Some (BodyPosts
                 (map listed_post
                    (firstn 10 (skipn (Z.to_nat ((p - 1) * 10))
                                  (SortDescending.sort (collection w)))))).
Proof.
  intros Hp Hsafe Hrest.
  assert (Hpage : parseInt (PostsCtrl.page_or_default (Some (String_of_Z p))) = Num p).
  { rewrite <- (append_empty (String_of_Z p)). apply decimal_page. reflexivity. }
  rewrite (run_list (createContext id (Some (String.append (String_of_Z p) rest)) req)
             w p (decimal_page p rest Hrest) Hp).
  rewrite (run_list (createContext id (Some (String_of_Z p)) req) w p Hpage Hp).
  do 2 eexists. split; [reflexivity|]. split; [reflexivity|].
  repeat split.
Qed.

Lemma list_ignores_text_after_page_number_witness :
  exists ctx1 ctx2,
    run mongo (PostsCtrl.list (createContext "" (Some "2abc") JNull))
      (mkWorld (map (fun n => mkDoc n "T" "B" [] 0)
                  [3; 11; 1; 7; 12; 5; 9; 2; 10; 4; 8; 6]%N) 0 0 0)
    = (Done ctx1,
       mkWorld (map (fun n => mkDoc n "T" "B" [] 0)
                  [3; 11; 1; 7; 12; 5; 9; 2; 10; 4; 8; 6]%N) 0 0 0)
    /\ run mongo (PostsCtrl.list (createContext "" (Some "2") JNull))
         (mkWorld (map (fun n => mkDoc n "T" "B" [] 0)
                     [3; 11; 1; 7; 12; 5; 9; 2; 10; 4; 8; 6]%N) 0 0 0)
       = (Done ctx2,
          mkWorld (map (fun n => mkDoc n "T" "B" [] 0)
                     [3; 11; 1; 7; 12; 5; 9; 2; 10; 4; 8; 6]%N) 0 0 0)
    /\ response_body ctx1 = response_body ctx2
    /\ response_body ctx1
       = Some (BodyPosts (map (fun n => toJSON (mkDoc n "T" "B" [] 0)) [2; 1]%N)).
Proof.
  destruct (list_ignores_text_after_page_number
              (mkWorld (map (fun n => mkDoc n "T" "B" [] 0)
                          [3; 11; 1; 7; 12; 5; 9; 2; 10; 4; 8; 6]%N) 0 0 0)
              "" JNull 2 "abc")
    as (ctx1 & ctx2 & Hrun1 & Hrun2 & _ & _ & Hsame & _ & Hb);
    [lia | unfold MAX_SAFE_INTEGER; lia | reflexivity |].
  exists ctx1, ctx2.
  split; [exact Hrun1|]. split; [exact Hrun2|]. split; [exact Hsame|].
  rewrite Hb. reflexivity.
Defined.

(** X13. Without a page parameter, or with an empty one, the list is that
    of page 1: status 200 and the first ten posts in descending order of
    id. *)
Theorem list_default_page (w : World) (id : string) (page : option string) (req : jsval) :
  page = None \/ page = Some EmptyString ->
  exists ctx',
    run mongo (PostsCtrl.list (createContext id page req)) w = (Done ctx', w)
    /\ status ctx' = 200
    /\ response_body ctx'
       = Some (BodyPosts
                 (map listed_post (firstn 10 (SortDescending.sort (collection w)))))
    /\ fst (run mongo (PostsCtrl.list (createContext id (Some "1") req)) w)
       = Done (mkCtx id (Some "1") req (status ctx') (explicitStatus ctx')
                 (response_body ctx') (headers ctx')).
Proof.
  intros Hpage.
  assert (H1 : parseInt (PostsCtrl.page_or_default
                           (query_page (createContext id page req))) = Num 1)
    by (destruct Hpage as [-> | ->]; reflexivity).
  rewrite (run_list (createContext id page req) w 1 H1) by lia.
  rewrite (run_list (createContext id (Some "1") req) w 1 eq_refl) by lia.
  eexists. split; [reflexivity|].
  split; [reflexivity|]. split; reflexivity.
Qed.

Lemma list_default_page_witness :
  exists ctx',
    run mongo (PostsCtrl.list (createContext "" None JNull))
      (mkWorld [mkDoc 1%N "T1" "B1" [] 0; mkDoc 2%N "T2" "B2" [] 0] 0 0 0)
    = (Done ctx', mkWorld [mkDoc 1%N "T1" "B1" [] 0; mkDoc 2%N "T2" "B2" [] 0] 0 0 0)
    /\ status ctx' = 200
    /\ response_body ctx'
       = Some (BodyPosts [toJSON (mkDoc 2%N "T2" "B2" [] 0);
                          toJSON (mkDoc 1%N "T1" "B1" [] 0)]).
Proof.
  destruct (list_default_page
              (mkWorld [mkDoc 1%N "T1" "B1" [] 0; mkDoc 2%N "T2" "B2" [] 0] 0 0 0)
              "" None JNull (or_introl eq_refl))
    as (ctx' & Hrun & Hs & Hb & _).
  exists ctx'. split; [exact Hrun|]. split; [exact Hs|].
  rewrite Hb. reflexivity.
Defined.

(** X14. A page past the last one is not an error: when the posts before
    page [p] already are all the posts, the answer is 200 with an empty
    list, and [Last-Page] is set as for any page. *)
Theorem list_past_last_page (w : World) (id : string) (page : option string)
    (req : jsval) (p : Z) :
  parseInt (PostsCtrl.page_or_default page) = Num p ->
  1 <= p ->
  Z.of_nat (List.length (collection w)) <= (p - 1) * 10 ->
  exists ctx',
    run mongo (PostsCtrl.list (createContext id page req)) w = (Done ctx', w)
    /\ status ctx' = 200
    /\ response_body ctx' = Some (BodyPosts [])
    /\ get_header "Last-Page" ctx'
       = Some (String_of_Z (Math_ceil_div (Z.of_nat (List.length (collection w))) 10)).
Proof.
  intros Hpage Hp Hcount.
  rewrite (run_list (createContext id page req) w p Hpage Hp).
  rewrite skipn_all2 by (rewrite length_sorted; lia).
  eexists. split; [reflexivity|].
  split; [reflexivity|]. split; reflexivity.
Qed.

Lemma list_past_last_page_witness :
  exists ctx',
    run mongo (PostsCtrl.list (createContext "" (Some "2") JNull))
      (mkWorld [mkDoc 1%N "T" "B" [] 0] 0 0 0)
    = (Done ctx', mkWorld [mkDoc 1%N "T" "B" [] 0] 0 0 0)
    /\ status ctx' = 200
    /\ response_body ctx' = Some (BodyPosts [])
    /\ get_header "Last-Page" ctx' = Some "1".
Proof.
  destruct (list_past_last_page (mkWorld [mkDoc 1%N "T" "B" [] 0] 0 0 0)
              "" (Some "2") JNull 2 eq_refl)
    as (ctx' & Hrun & Hs & Hb & Hh); [lia | cbn; lia |].
  exists ctx'. repeat split; assumption.
Defined.

Lemma shown_page_eq w p :
  1 <= p ->
  shown_page w p
  = map listed_post
      (firstn 10 (skipn (Z.to_nat ((p - 1) * 10)) (SortDescending.sort (collection w)))).
Proof.
  intros Hp. unfold shown_page.
  rewrite (run_list (page_request p) w p (page_request_page p) Hp).
  reflexivity.
Qed.

Lemma firstn_plus {A : Type} (a b : nat) : forall l : list A,
  firstn (a + b) l = (firstn a l ++ firstn b (skipn a l))%list.
Proof.
  induction a as [|a IH]; intros l; cbn [Nat.add firstn skipn app].
  - reflexivity.
  - destruct l as [|x rest]; cbn [firstn skipn app].
    + rewrite firstn_nil. reflexivity.
    + rewrite IH. reflexivity.
Qed.

Lemma concat_pages {A : Type} (l : list A) (n : nat) :
  List.concat (map (fun k => firstn 10 (skipn (10 * k) l)) (seq 0 n)) = firstn (10 * n) l.
Proof.
  induction n as [|n IH].
  - reflexivity.
  - rewrite seq_S, map_app, concat_app, IH. cbn [Nat.add map List.concat].
    rewrite app_nil_r.
    replace (10 * S n)%nat with (10 * n + 10)%nat by lia.
    rewrite firstn_plus. reflexivity.
Qed.

(** X15. Paging shows every post exactly once: the pages 1 to
    [Last-Page], one after the other, are the whole collection in descending
    order of id, each post in its listed form. *)
Theorem pages_show_every_post_once (w : World) :
  List.concat (map (fun k => shown_page w (Z.of_nat (S k)))
            (seq 0 (Z.to_nat (Math_ceil_div (Z.of_nat (List.length (collection w))) 10))))
  = map listed_post (SortDescending.sort (collection w))
  /\ Permutation (collection w) (SortDescending.sort (collection w)).
Proof.
  split; [|apply SortDescending.Permuted_sort].
  pose proof (Math_ceil_div_10 (Z.of_nat (List.length (collection w)))) as Hceil.
  set (n := Z.to_nat (Math_ceil_div (Z.of_nat (List.length (collection w))) 10)).
  assert (Hpages : map (fun k => shown_page w (Z.of_nat (S k))) (seq 0 n)
                   = map (map listed_post)
                       (map (fun k => firstn 10 (skipn (10 * k)
                                                   (SortDescending.sort (collection w))))
                            (seq 0 n))).
  { rewrite map_map. apply map_ext. intros k.
    rewrite shown_page_eq by lia.
    replace (Z.to_nat ((Z.of_nat (S k) - 1) * 10)) with (10 * k)%nat by lia.
    reflexivity. }
  rewrite Hpages, <- concat_map, concat_pages.
  rewrite firstn_all2; [reflexivity|].
  rewrite length_sorted. subst n. lia.
Qed.

Lemma length_append a b :
  String.length (String.append a b) = (String.length a + String.length b)%nat.
Proof.
  induction a as [|c rest IH]; cbn [String.append String.length]; [reflexivity|].
  rewrite IH. reflexivity.
Qed.

Lemma length_substring_le n : forall s,
  (String.length (String.substring 0 n s) <= n)%nat.
Proof.
  induction n as [|n IH]; intros s; destruct s as [|c rest];
    cbn [String.substring String.length]; try lia.
  specialize (IH rest). lia.
Qed.

Lemma length_shorten_body b : (String.length (shorten_body b) <= 203)%nat.
Proof.
  unfold shorten_body. destruct (String.length b <? 200)%nat eqn:E.
  - apply Nat.ltb_lt in E. lia.
  - rewrite length_append. pose proof (length_substring_le 200 b) as H.
    cbn [String.length]. lia.
Qed.

Lemma In_page {A : Type} (x : A) n m l : In x (firstn n (skipn m l)) -> In x l.
Proof.
  intros H.
  assert (H1 : In x (skipn m l)).
  { rewrite <- (firstn_skipn n (skipn m l)). apply in_or_app. left. exact H. }
  rewrite <- (firstn_skipn m l). apply in_or_app. right. exact H1.
Qed.

(** X16. The list shows stored posts and nothing else: every post of a
    page is a post of the collection, shown with its stored id, title, tags
    and timestamp, and with a body of at most 203 characters that is the
    stored body whenever that has fewer than 200 characters. *)
Theorem list_shows_stored_posts (w : World) (id : string) (page : option string)
    (req : jsval) (p : Z) :
  parseInt (PostsCtrl.page_or_default page) = Num p ->
  1 <= p ->
  exists ctx' posts,
    run mongo (PostsCtrl.list (createContext id page req)) w = (Done ctx', w)
    /\ response_body ctx' = Some (BodyPosts (map listed_post posts))
    /\ (forall d, In d posts -> In d (collection w))
    /\ forall d,
         obj_get "_id" (listed_post d) = Some (JOid (_id d))
         /\ obj_get "title" (listed_post d) = Some (JStr (title d))
         /\ obj_get "tags" (listed_post d) = Some (JArr (map JStr (tags d)))
         /\ obj_get "publishedData" (listed_post d) = Some (JDate (publishedData d))
         /\ exists b,
              obj_get "body" (listed_post d) = Some (JStr b)
              /\ (String.length b <= 203)%nat
              /\ ((String.length (body d) < 200)%nat -> b = body d).
Proof.
  intros Hpage Hp.
  rewrite (run_list (createContext id page req) w p Hpage Hp).
  do 2 eexists. split; [reflexivity|]. split; [reflexivity|].
  split.
  - intros d Hd. apply In_page in Hd.
    eapply Permutation_in; [|exact Hd].
    apply Permutation_sym, SortDescending.Permuted_sort.
  - intros d. repeat (split; [reflexivity|]).
    exists (shorten_body (body d)). split; [reflexivity|].
    split; [apply length_shorten_body|apply shorten_body_below_200].
Qed.

Lemma list_shows_stored_posts_witness :
  exists ctx' posts,
    run mongo (PostsCtrl.list (createContext "" (Some "1") JNull))
      (mkWorld [mkDoc 1%N "T1" "B1" [] 0; mkDoc 2%N "T2" "B2" [] 0] 0 0 0)
    = (Done ctx', mkWorld [mkDoc 1%N "T1" "B1" [] 0; mkDoc 2%N "T2" "B2" [] 0] 0 0 0)
    /\ response_body ctx' = Some (BodyPosts (map listed_post posts)).
Proof.
  destruct (list_shows_stored_posts
              (mkWorld [mkDoc 1%N "T1" "B1" [] 0; mkDoc 2%N "T2" "B2" [] 0] 0 0 0)
              "" (Some "1") JNull 1 eq_refl)
    as (ctx' & posts & Hrun & Hb & _); [lia|].
  exists ctx', posts. split; assumption.
Defined.

(* ================================================================== *)
(** ** Create, then list or read through the guard *)

(** What [write] does with an accepted body when the generated id is
    fresh. *)
Lemma run_write ctx w :
  Schema_validate PostsCtrl.write_schema (request_body ctx) = None ->
  existsb (has_id (generate_ObjectId w)) (collection w) = false ->
  run mongo (PostsCtrl.write ctx) w
  = (Done (set_body
             (BodyPost (new_Post (obj_get "title" (request_body ctx))
                                 (obj_get "body" (request_body ctx))
                                 (obj_get "tags" (request_body ctx)) w))
             ctx),
     mkWorld (collection w
              ++ [new_Post (obj_get "title" (request_body ctx))
                           (obj_get "body" (request_body ctx))
                           (obj_get "tags" (request_body ctx)) w])%list
             (Date_now w) (oid_random w) (oid_counter w + 1)%N).
Proof.
  intros Hvalid Hfresh. unfold PostsCtrl.write. rewrite Hvalid.
  unfold try_await. cbn [run mongo].
  cbn [collection new_Post _id]. rewrite Hfresh. reflexivity.
Qed.

Lemma older_ids_fresh o docs :
  Forall (fun d => (_id d < o)%N) docs -> existsb (has_id o) docs = false.
Proof.
  induction 1 as [|d rest Hd _ IH]; cbn [existsb]; [reflexivity|].
  rewrite IH, orb_false_r. unfold has_id. apply N.eqb_neq. lia.
Qed.

(** The newest post is the first of the descending sort. *)
Lemma sort_newest_first docs post :
  In post docs ->
  (forall d, In d docs -> d = post \/ (_id d < _id post)%N) ->
  exists others, SortDescending.sort docs = post :: others.
Proof.
  intros Hin Hmax.
  pose proof (SortDescending.Permuted_sort docs) as Hperm.
  pose proof (sort_newer_first docs) as Hsorted.
  destruct (SortDescending.sort docs) as [|h t].
  - apply Permutation_sym, Permutation_nil in Hperm. subst docs. destruct Hin.
  - assert (Hh : In h docs)
      by (eapply Permutation_in; [apply Permutation_sym; exact Hperm | left; reflexivity]).
    destruct (Hmax h Hh) as [->|Hlt]; [exists t; reflexivity|].
    exfalso.
    assert (Hp : In post (h :: t)) by (eapply Permutation_in; eassumption).
    destruct Hp as [->|Hp]; [lia|].
    apply StronglySorted_inv in Hsorted. destruct Hsorted as [_ Hall].
    rewrite Forall_forall in Hall. specialize (Hall post Hp).
    unfold newer_first in Hall. lia.
Qed.

(** X17. A post that has just been created is the first of the list: when
    the id assigned is above every stored id, the create answers with the
    post and the first page that follows begins with it, in its listed
    form. *)
Theorem created_post_heads_the_list (w : World) (id : string) (page : option string)
    (req : jsval) (id' : string) (req' : jsval) :
  Schema_validate PostsCtrl.write_schema req = None ->
  Forall (fun d => (_id d < generate_ObjectId w)%N) (collection w) ->
  exists post ctx1 w1 ctx2 others,
    run mongo (PostsCtrl.write (createContext id page req)) w = (Done ctx1, w1)
    /\ response_body ctx1 = Some (BodyPost post)
    /\ run mongo (PostsCtrl.list (createContext id' None req')) w1 = (Done ctx2, w1)
    /\ response_body ctx2 = Some (BodyPosts (listed_post post :: others)).
Proof.
  intros Hvalid Holder.
  pose proof (older_ids_fresh _ _ Holder) as Hfresh.
  rewrite (run_write (createContext id page req) w Hvalid Hfresh).
  cbn [request_body createContext].
  set (post := new_Post (obj_get "title" req) (obj_get "body" req) (obj_get "tags" req) w).
  destruct (sort_newest_first (collection w ++ [post]) post) as [others Hsort].
  - apply in_or_app. right. left. reflexivity.
  - intros d Hd. apply in_app_or in Hd. destruct Hd as [Hd|[<-|[]]].
    + right. rewrite Forall_forall in Holder. exact (Holder d Hd).
    + left. reflexivity.
  - exists post. do 3 eexists. exists (map listed_post (firstn 9 others)).
    split; [reflexivity|]. split; [reflexivity|].
    rewrite (run_list (createContext id' None req') _ 1 eq_refl) by lia.
    cbn [collection]. rewrite Hsort.
    split; reflexivity.
Qed.

Lemma created_post_heads_the_list_witness :
  exists post ctx1 w1 ctx2 others,
    run mongo
      (PostsCtrl.write
         (createContext "" None
            (JObj [("title", JStr "T"); ("body", JStr "B"); ("tags", JArr [])])))
      (mkWorld [mkDoc 1%N "T1" "B1" [] 0] 1600000000000 7 0)
    = (Done ctx1, w1)
    /\ response_body ctx1 = Some (BodyPost post)
    /\ run mongo (PostsCtrl.list (createContext "" None JNull)) w1 = (Done ctx2, w1)
    /\ response_body ctx2 = Some (BodyPosts (listed_post post :: others)).
Proof.
  apply (created_post_heads_the_list
           (mkWorld [mkDoc 1%N "T1" "B1" [] 0] 1600000000000 7 0) "" None
           (JObj [("title", JStr "T"); ("body", JStr "B"); ("tags", JArr [])])
           "" JNull eq_refl).
  constructor; [vm_compute; reflexivity|constructor].
Defined.

(** X18. The id a create hands out passes the guard: written as the
    client receives it, the id of a created post is well formed, so the
    guard in front of any handler runs that handler on the unchanged
    context. *)
Theorem created_id_passes_guard (w : World) (id : string) (page : option string)
    (req : jsval) (page' : option string) (req' : jsval) (next : Ctx -> prog Ctx) :
  Schema_validate PostsCtrl.write_schema req = None ->
  existsb (has_id (generate_ObjectId w)) (collection w) = false ->
  exists post ctx1 w1,
    run mongo (PostsCtrl.write (createContext id page req)) w = (Done ctx1, w1)
    /\ response_body ctx1 = Some (BodyPost post)
    /\ ObjectId_isValid (toHexString (_id post)) = true
    /\ PostsCtrl.checkObjectId (createContext (toHexString (_id post)) page' req') next
       = next (createContext (toHexString (_id post)) page' req').
Proof.
  intros Hvalid Hfresh.
  rewrite (run_write (createContext id page req) w Hvalid Hfresh).
  do 3 eexists. split; [reflexivity|]. split; [reflexivity|].
  cbn [new_Post _id].
  assert (Hv : ObjectId_isValid (toHexString (generate_ObjectId w)) = true).
  { apply isValid_iff_cast. exists (generate_ObjectId w).
    apply castObjectId_toHexString, generate_ObjectId_bound. }
  split; [exact Hv|].
  unfold PostsCtrl.checkObjectId. cbn [params_id createContext].
  rewrite Hv. reflexivity.
Qed.

Lemma created_id_passes_guard_witness :
  exists post ctx1 w1,
    run mongo
      (PostsCtrl.write
         (createContext "" None
            (JObj [("title", JStr "T"); ("body", JStr "B"); ("tags", JArr [])])))
      (mkWorld [] 1600000000000 7 0)
    = (Done ctx1, w1)
    /\ response_body ctx1 = Some (BodyPost post)
    /\ ObjectId_isValid (toHexString (_id post)) = true.
Proof.
  destruct (created_id_passes_guard (mkWorld [] 1600000000000 7 0) "" None
              (JObj [("title", JStr "T"); ("body", JStr "B"); ("tags", JArr [])])
              None JNull PostsCtrl.read eq_refl eq_refl)
    as (post & ctx1 & w1 & Hrun & Hb & Hv & _).
  exists post, ctx1, w1. repeat split; assumption.
Defined.

(* ================================================================== *)
(** ** The handlers before validation *)

(** X20. The create of the earlier revisions refuses nothing: for every
    body that is not [null] it constructs a post from the three fields as
    they come and saves it, so that, whatever the store, the answer is 200 or
    500 and never 400, where the validating create refuses the same body
    unless it is acceptable. *)
Theorem earlier_write_refuses_nothing (W : Type) (h : Store W) (w : W)
    (id : string) (page : option string) (req : jsval) :
  req <> JNull ->
  In (response_status
        (fst (run h (PostsCtrlEarlier.write (createContext id page req)) w)))
     [200; 500]
  /\ (exists post,
        queries h (PostsCtrlEarlier.write (createContext id page req)) w
        = [Q _ (NewPost (obj_get "title" req) (obj_get "body" req) (obj_get "tags" req));
           Q _ (Save post)])
  /\ (acceptable_create req = false ->
        exists ctx',
          PostsCtrl.write (createContext id page req) = Ret ctx' /\ status ctx' = 400).
Proof.
  intros Hreq.
  assert (Hprog : PostsCtrlEarlier.write (createContext id page req)
                  = Call (NewPost (obj_get "title" req) (obj_get "body" req)
                                  (obj_get "tags" req))
                      (fun post =>
                         await _ <- Save post ;;
                         Ret (set_body (BodyPost post) (createContext id page req))))
    by (destruct req; try contradiction; reflexivity).
  rewrite Hprog. unfold try_await. cbn [run queries].
  destruct (h _ (NewPost (obj_get "title" req) (obj_get "body" req) (obj_get "tags" req)) w)
    as [post w1].
  cbn [run queries].
  destruct (h _ (Save post) w1) as [[e|u] w2]; cbn [run queries fst response_status].
  - split; [cbn; auto|]. split; [exists post; reflexivity|].
    intros Hacc.
    destruct (proj2 (write_accepts_exactly_aux (createContext id page req)) Hacc)
      as (ctx' & Hret & Hs).
    exists ctx'. split; assumption.
  - split; [cbn; auto|]. split; [exists post; reflexivity|].
    intros Hacc.
    destruct (proj2 (write_accepts_exactly_aux (createContext id page req)) Hacc)
      as (ctx' & Hret & Hs).
    exists ctx'. split; assumption.
Qed.

Lemma earlier_write_refuses_nothing_witness :
  In (response_status
        (fst (run mongo (PostsCtrlEarlier.write (createContext "" None (JObj [])))
                (mkWorld [] 0 0 0))))
     [200; 500]
  /\ exists ctx',
       PostsCtrl.write (createContext "" None (JObj [])) = Ret ctx' /\ status ctx' = 400.
Proof.
  assert (Hreq : JObj [] <> JNull) by discriminate.
  destruct (earlier_write_refuses_nothing World mongo (mkWorld [] 0 0 0) "" None
              (JObj []) Hreq)
    as (Hs & _ & H400).
  split; [exact Hs|]. apply H400. reflexivity.
Defined.

(** X21. The update of the revision without validation refuses nothing
    either: whatever the body, one that names [publishedData] or [_id]
    included, its one step is the update query with the id and the body as
    they came, so that, whatever the store, the answer is 200, 404 or 500 and
    never 400, where the validating update refuses the same body unless it
    is acceptable. *)
Theorem earlier_update_refuses_nothing (W : Type) (h : Store W) (w : W)
    (id : string) (page : option string) (req : jsval) :
  In (response_status
        (fst (run h (PostsCtrlEarlier.update (createContext id page req)) w)))
     [200; 404; 500]
  /\ queries h (PostsCtrlEarlier.update (createContext id page req)) w
     = [Q _ (FindByIdAndUpdate id req true)]
  /\ (acceptable_update req = false ->
        exists ctx',
          PostsCtrl.update (createContext id page req) = Ret ctx' /\ status ctx' = 400).
Proof.
  unfold PostsCtrlEarlier.update, try_await.
  cbn [params_id request_body createContext run queries].
  destruct (h _ (FindByIdAndUpdate id req true) w) as [[e|[post|]] w1];
    cbn [run queries fst response_status].
  all: split; [cbn; auto|]; split; [reflexivity|].
  all: intros Hacc;
    exact (proj2 (update_accepts_exactly_aux (createContext id page req)) Hacc).
Qed.

Lemma earlier_update_refuses_nothing_witness :
  queries mongo
    (PostsCtrlEarlier.update
       (createContext "5f60b4000000000007000000" None (JObj [("publishedData", JNum 9)])))
    (mkWorld [] 0 0 0)
  = [Q _ (FindByIdAndUpdate "5f60b4000000000007000000"
            (JObj [("publishedData", JNum 9)]) true)]
  /\ exists ctx',
       PostsCtrl.update
         (createContext "5f60b4000000000007000000" None (JObj [("publishedData", JNum 9)]))
       = Ret ctx'
       /\ status ctx' = 400.
Proof.
  destruct (earlier_update_refuses_nothing World mongo (mkWorld [] 0 0 0)
              "5f60b4000000000007000000" None (JObj [("publishedData", JNum 9)]))
    as (_ & Hq & H400).
  split; [exact Hq|]. apply H400. reflexivity.
Defined.

(* ================================================================== *)
(** ** The detail of a refusal *)

Lemma write_validate_steps fields :
  Schema_validate PostsCtrl.write_schema (JObj fields)
  = match
      match validate_value (Joi_required Joi_string) [inl "title"]
              (assoc_get "title" fields) with
      | Some e => Some e
      | None =>
          match validate_value (Joi_required Joi_string) [inl "body"]
                  (assoc_get "body" fields) with
          | Some e => Some e
          | None =>
              match validate_value (Joi_required (Joi_array_items Joi_string))
                      [inl "tags"] (assoc_get "tags" fields) with
              | Some e => Some e
              | None => None
              end
          end
      end
    with
    | Some e => Some e
    | None =>
        match find (fun kv => negb (known_key
                                      [("title", Joi_required Joi_string);
                                       ("body", Joi_required Joi_string);
                                       ("tags", Joi_required (Joi_array_items Joi_string))]
                                      kv)) fields with
        | Some (k, _) => Some (mkValidationError "object.unknown" [inl k])
        | None => None
        end
    end.
Proof. reflexivity. Qed.

Lemma required_text_ok path v :
  required_field nonempty_string v = true ->
  validate_value (Joi_required Joi_string) path v = None.
Proof.
  intros H. apply (validate_required_iff Joi_string nonempty_string); [|exact H].
  intros x. apply validate_string_iff.
Qed.

Lemma required_texts_ok path v :
  required_field nonempty_strings v = true ->
  validate_value (Joi_required (Joi_array_items Joi_string)) path v = None.
Proof.
  intros H.
  apply (validate_required_iff (Joi_array_items Joi_string) nonempty_strings); [|exact H].
  intros x. apply validate_strings_iff.
Qed.

(** X22. The error a create is refused with names the first field at
    fault, in the order [title], [body], [tags]: a missing field is reported
    as required at its own path once the fields before it are in order, and
    a property the schema does not list is reported only when all three
    are. *)
Theorem write_error_names_first_fault (ctx : Ctx) (fields : list (string * jsval)) :
  request_body ctx = JObj fields ->
  let refused_with e :=
    PostsCtrl.write ctx = Ret (set_body (BodyError e) (set_status 400 ctx)) in
  (assoc_get "title" fields = None ->
     refused_with (mkValidationError "any.required" [inl "title"]))
  /\ (required_field nonempty_string (assoc_get "title" fields) = true ->
      assoc_get "body" fields = None ->
        refused_with (mkValidationError "any.required" [inl "body"]))
  /\ (required_field nonempty_string (assoc_get "title" fields) = true ->
      required_field nonempty_string (assoc_get "body" fields) = true ->
      assoc_get "tags" fields = None ->
        refused_with (mkValidationError "any.required" [inl "tags"]))
  /\ (required_field nonempty_string (assoc_get "title" fields) = true ->
      required_field nonempty_string (assoc_get "body" fields) = true ->
      required_field nonempty_strings (assoc_get "tags" fields) = true ->
      forall k v,
        find (fun kv => negb (existsb (String.eqb (fst kv)) ["title"; "body"; "tags"]))
          fields = Some (k, v) ->
        refused_with (mkValidationError "object.unknown" [inl k])).
Proof.
  intros Hreq. cbv zeta.
  repeat split.
  - intros Ht. apply write_on_error. rewrite Hreq, write_validate_steps, Ht. reflexivity.
  - intros Ht Hb. apply write_on_error.
    rewrite Hreq, write_validate_steps, (required_text_ok _ _ Ht), Hb. reflexivity.
  - intros Ht Hb Hg. apply write_on_error.
    rewrite Hreq, write_validate_steps, (required_text_ok _ _ Ht),
      (required_text_ok _ _ Hb), Hg.
    reflexivity.
  - intros Ht Hb Hg k v Hfind. apply write_on_error.
    rewrite Hreq, write_validate_steps, (required_text_ok _ _ Ht),
      (required_text_ok _ _ Hb), (required_texts_ok _ _ Hg).
    change (find (fun kv => negb (known_key _ kv)) fields)
      with (find (fun kv => negb (existsb (String.eqb (fst kv)) ["title"; "body"; "tags"]))
              fields).
    rewrite Hfind. reflexivity.
Qed.

Lemma write_error_names_first_fault_witness :
  PostsCtrl.write (createContext "" None (JObj [("title", JStr "T"); ("extra", JNull)]))
  = Ret (set_body (BodyError (mkValidationError "any.required" [inl "body"]))
           (set_status 400
              (createContext "" None (JObj [("title", JStr "T"); ("extra", JNull)]))))
  /\ PostsCtrl.write
       (createContext "" None
          (JObj [("title", JStr "T"); ("extra", JNull); ("body", JStr "B");
                 ("tags", JArr [])]))
     = Ret (set_body (BodyError (mkValidationError "object.unknown" [inl "extra"]))
              (set_status 400
                 (createContext "" None
                    (JObj [("title", JStr "T"); ("extra", JNull); ("body", JStr "B");
                           ("tags", JArr [])])))).
Proof.
  split.
  - apply (proj1 (proj2 (write_error_names_first_fault
                           (createContext "" None
                              (JObj [("title", JStr "T"); ("extra", JNull)]))
                           [("title", JStr "T"); ("extra", JNull)] eq_refl)));
      reflexivity.
  - apply (proj2 (proj2 (proj2 (write_error_names_first_fault
                           (createContext "" None
                              (JObj [("title", JStr "T"); ("extra", JNull);
                                     ("body", JStr "B"); ("tags", JArr [])]))
                           [("title", JStr "T"); ("extra", JNull); ("body", JStr "B");
                            ("tags", JArr [])] eq_refl)))) with (v := JNull);
      reflexivity.
Defined.

(* ================================================================== *)
(** ** Update or remove, then read or list *)

(** X23. Reading after an update gives what the update answered: for an
    accepted body on a stored post, the post in the update's 200 answer is
    the post a read of the same id answers with next. *)
Theorem update_then_read (w : World) (id : string) (page : option string)
    (req : jsval) (page' : option string) (req' : jsval) (o : ObjectId) (d : Doc) :
  Schema_validate PostsCtrl.update_schema req = None ->
  castObjectId id = Some o ->
  find (has_id o) (collection w) = Some d ->
  exists d' ctx1 w1 ctx2,
    run mongo (PostsCtrl.update (createContext id page req)) w = (Done ctx1, w1)
    /\ response_body ctx1 = Some (BodyPost d')
    /\ run mongo (PostsCtrl.read (createContext id page' req')) w1 = (Done ctx2, w1)
    /\ status ctx2 = 200
    /\ response_body ctx2 = Some (BodyPost d').
Proof.
  intros Hv Ho Hfind.
  destruct (apply_update_accepted req d Hv) as (d' & Happly & Hid & _).
  destruct (find_has_id _ _ _ Hfind) as [Hd _].
  exists d'.
  unfold PostsCtrl.update, try_await. cbn [request_body params_id createContext].
  rewrite Hv. cbn [run mongo]. rewrite Ho, Hfind, Happly.
  do 3 eexists. split; [reflexivity|]. split; [reflexivity|].
  rewrite (run_read (createContext id page' req') _ o Ho).
  cbn [collection with_collection].
  rewrite (find_replace_first o d' (collection w) d Hfind) by congruence.
  split; [reflexivity|]. split; reflexivity.
Qed.

Lemma update_then_read_witness :
  exists d' ctx1 w1 ctx2,
    run mongo
      (PostsCtrl.update
         (createContext "5f60b4000000000007000000" None (JObj [("title", JStr "New")])))
      (mkWorld [mkDoc 29517982837677702465881899008%N "T" "B" ["x"] 5] 0 0 0)
    = (Done ctx1, w1)
    /\ response_body ctx1 = Some (BodyPost d')
    /\ run mongo (PostsCtrl.read (createContext "5f60b4000000000007000000" None JNull)) w1
       = (Done ctx2, w1)
    /\ status ctx2 = 200
    /\ response_body ctx2 = Some (BodyPost d').
Proof.
  exact (update_then_read
           (mkWorld [mkDoc 29517982837677702465881899008%N "T" "B" ["x"] 5] 0 0 0)
           "5f60b4000000000007000000" None (JObj [("title", JStr "New")]) None JNull
           29517982837677702465881899008%N
           (mkDoc 29517982837677702465881899008%N "T" "B" ["x"] 5)
           eq_refl eq_refl eq_refl).
Defined.

Lemma In_remove_first o docs d :
  NoDup (map _id docs) -> In d (remove_first o docs) -> _id d <> o /\ In d docs.
Proof.
  induction docs as [|x rest IH]; cbn [remove_first map]; intros Hnd Hin.
  - destruct Hin.
  - inversion_clear Hnd as [|? ? Hnotin Hrest].
    destruct (has_id o x) eqn:E.
    + apply has_id_eq in E. split; [|right; exact Hin].
      intros Hd. apply Hnotin. rewrite E, <- Hd. apply in_map. exact Hin.
    + destruct Hin as [<-|Hin].
      * split; [|left; reflexivity].
        intros Hd. apply has_id_eq in Hd. rewrite Hd in E. discriminate E.
      * destruct (IH Hrest Hin) as [Hne Hin']. split; [exact Hne|right; exact Hin'].
Qed.

(** X24. A removed post is gone from the list: after the removal of a
    well-formed id, the ids in the collection being unique, no page shows a
    post with that id, and every post a page shows was in the collection
    before. *)
Theorem remove_then_list (w : World) (id : string) (page : option string)
    (req : jsval) (id' : string) (page' : option string) (req' : jsval)
    (o : ObjectId) (p : Z) :
  castObjectId id = Some o ->
  unique_ids w ->
  parseInt (PostsCtrl.page_or_default page') = Num p ->
  1 <= p ->
  exists ctx1 w1 ctx2 posts,
    run mongo (PostsCtrl.remove (createContext id page req)) w = (Done ctx1, w1)
    /\ run mongo (PostsCtrl.list (createContext id' page' req')) w1 = (Done ctx2, w1)
    /\ response_body ctx2 = Some (BodyPosts (map listed_post posts))
    /\ forall d, In d posts -> _id d <> o /\ In d (collection w).
Proof.
  intros Ho Huniq Hpage Hp.
  rewrite (run_remove (createContext id page req) w o Ho).
  do 4 eexists. split; [reflexivity|].
  rewrite (run_list (createContext id' page' req') _ p Hpage Hp).
  split; [reflexivity|]. split; [reflexivity|].
  intros d Hd. cbn [collection with_collection] in Hd.
  apply In_page in Hd.
  apply (In_remove_first o (collection w) d Huniq).
  eapply Permutation_in; [|exact Hd].
  apply Permutation_sym, SortDescending.Permuted_sort.
Qed.

Lemma remove_then_list_witness :
  exists ctx1 w1 ctx2,
    run mongo (PostsCtrl.remove (createContext "5f60b4000000000007000000" None JNull))
      (mkWorld [mkDoc 1%N "T1" "B1" [] 0;
                mkDoc 29517982837677702465881899008%N "T" "B" [] 0] 0 0 0)
    = (Done ctx1, w1)
    /\ run mongo (PostsCtrl.list (createContext "" None JNull)) w1 = (Done ctx2, w1).
Proof.
  destruct (remove_then_list
              (mkWorld [mkDoc 1%N "T1" "B1" [] 0;
                        mkDoc 29517982837677702465881899008%N "T" "B" [] 0] 0 0 0)
              "5f60b4000000000007000000" None JNull "" None JNull
              29517982837677702465881899008%N 1 eq_refl)
    as (ctx1 & w1 & ctx2 & posts & H1 & H2 & _).
  - unfold unique_ids. cbn [collection map _id].
    constructor; [intros [H|[]]; discriminate H|].
    constructor; [intros []|constructor].
  - reflexivity.
  - lia.
  - exists ctx1, w1, ctx2. split; assumption.
Defined.
